(** * xTuring: device selection and the Lightning training orchestrator

    A shallow embedding of [xturing/config/__init__.py] and
    [xturing/trainers/lightning_trainer.py].

    Python statements become computations in a small monad [M] that threads
    the observable world (what was printed, probed, created on disk, logged)
    and propagates exceptions the way Python does: the effects that happened
    before a [raise] stay in the world.

    The language and its standard library are modelled by what they do
    (unbound locals, calling a non-callable, [assert], [try]/[except],
    [datetime.timedelta]'s range).  The third-party frameworks (torch,
    deepspeed, pytorch_lightning) are modelled by the shape of the objects
    the code hands to them: a constructor records its arguments, an
    optimizer's after the checks it makes on them. *)

From Stdlib Require Import String List Bool Arith ZArith Lia.
From Stdlib Require Import Floats.PrimFloat.
Import ListNotations.
Local Open Scope string_scope.
Local Open Scope list_scope.

(* ===================================================================== *)
(** ** Python runtime: exceptions, world, monad *)
(* ===================================================================== *)

(** The exceptions that occur in the two files, and [OtherError] for one
    raised inside a collaborator (the model engine, the model).  An
    [AttributeError] carries the attribute that was not found, an
    [UnboundLocalError] the local that was read, a [ValueError] its message
    up to the value it quotes. *)
Inductive exn : Type :=
| AttributeError (attr : string)
| UnboundLocalError (var : string)
| TypeError (msg : string)
| AssertionError (msg : string)
| OverflowError
| ValueError (msg : string)
| OtherError (msg : string).

Definition is_AttributeError (e : exn) : bool :=
  match e with AttributeError _ => true | _ => false end.

(** What the process does to the outside, in program order. *)
Inductive event : Type :=
| Stdout (line : string)
| Probe (accelerator : string)
| Mkdir (path : string)
| ModuleTrain (module_id : nat)
| ProgressLog (name : string) (value : float) (prog_bar : bool)
| ReadBestModelPath.

Record world : Type := mkWorld {
  trace : list event;
  paths : list string
}.

Inductive result (A : Type) : Type :=
| Ok (a : A)
| Raise (e : exn).
Arguments Ok {A} a.
Arguments Raise {A} e.

Definition M (A : Type) : Type := world -> result A * world.

Definition ret {A} (a : A) : M A := fun w => (Ok a, w).

Definition bind {A B} (c : M A) (k : A -> M B) : M B :=
  fun w =>
    match c w with
    | (Ok a, w') => k a w'
    | (Raise e, w') => (Raise e, w')
    end.

Definition raise {A} (e : exn) : M A := fun w => (Raise e, w).

Definition emit (ev : event) : M unit :=
  fun w => (Ok tt, mkWorld (trace w ++ [ev]) (paths w)).

(** [try: body  except <handled>: handler] *)
Definition try_except {A} (body : M A) (handled : exn -> bool) (handler : M A)
  : M A :=
  fun w =>
    match body w with
    | (Ok a, w') => (Ok a, w')
    | (Raise e, w') => if handled e then handler w' else (Raise e, w')
    end.

Declare Scope py_scope.
Delimit Scope py_scope with py.
Notation "x <- c1 ;; c2" := (bind c1 (fun x => c2))
  (at level 61, c1 at next level, right associativity) : py_scope.
Notation "c1 ;; c2" := (bind c1 (fun _ => c2))
  (at level 61, right associativity) : py_scope.
Local Open Scope py_scope.

(** [print(s)] *)
Definition print (s : string) : M unit := emit (Stdout s).

(** Reading a local that no executed branch has bound. *)
Definition read_local {A} (name : string) (v : option A) : M A :=
  match v with
  | Some a => ret a
  | None => raise (UnboundLocalError name)
  end.

(** The lines written to standard output, and the accelerators probed. *)
Fixpoint stdout_of (t : list event) : list string :=
  match t with
  | [] => []
  | Stdout s :: t' => s :: stdout_of t'
  | _ :: t' => stdout_of t'
  end.

Fixpoint probes_of (t : list event) : list string :=
  match t with
  | [] => []
  | Probe a :: t' => a :: probes_of t'
  | _ :: t' => probes_of t'
  end.

(* ===================================================================== *)
(** ** xturing/config/__init__.py *)
(* ===================================================================== *)

Module config.

(** [torch.device]: only its [type] attribute is read. *)
Record device : Type := torch_device { type : string }.

Inductive dtype : Type := float16 | float32.

(** What the two availability queries answer on the machine at hand. *)
Record hardware : Type := {
  cuda_available : bool;
  mps_available : bool
}.

Definition torch_cuda_is_available (hw : hardware) : M bool :=
  emit (Probe "cuda") ;; ret (cuda_available hw).

Definition torch_backends_mps_is_available (hw : hardware) : M bool :=
  emit (Probe "mps") ;; ret (mps_available hw).

(** The module's three globals. *)
Record globals : Type := {
  DEFAULT_DEVICE : device;
  DEFAULT_DTYPE : dtype;
  IS_INTERACTIVE : bool
}.

Definition warning : string :=
  "WARNING: CUDA is not available, using CPU instead, can be very slow".

(** The module body, run once at import.  [is_interactive_execution] lives
    in [xturing.utils.interactive]; the value it returns is taken as an
    argument. *)
Definition import_module (hw : hardware) (is_interactive_execution : bool)
  : M globals :=
  cuda <- torch_cuda_is_available hw ;;
  dev <- (if cuda then ret (torch_device "cuda")
          else
            mps <- torch_backends_mps_is_available hw ;;
            if mps then ret (torch_device "mps")
            else ret (torch_device "cpu")) ;;
  let dt := if type dev =? "cuda" then float16 else float32 in
  let interactive := is_interactive_execution in
  (if type dev =? "cpu" then print warning else ret tt) ;;
  ret {| DEFAULT_DEVICE := dev;
         DEFAULT_DTYPE := dt;
         IS_INTERACTIVE := interactive |}.

(** [assert DEFAULT_DEVICE.type != "cpu", "Int8 models are not supported on CPU"] *)
Definition assert_not_cpu_int8 (g : globals) : M unit :=
  if negb (type (DEFAULT_DEVICE g) =? "cpu") then ret tt
  else raise (AssertionError "Int8 models are not supported on CPU").

End config.

(* ===================================================================== *)
(** ** Collaborators of xturing/trainers/lightning_trainer.py *)
(* ===================================================================== *)

(** A Python value a step method hands back. *)
Record tensor : Type := { tensor_id : nat; item : float }.

Inductive pyval : Type :=
| PyNone
| PyTensor (t : tensor).

Inductive batch : Type := Batch (id : nat).

(** [torch.nn.Module], as far as the trainer touches it.  A model without
    the method [print_trainable_parameters] has [None] there. *)
Record nn_Module : Type := {
  module_id : nat;
  parameters : list nat;
  print_trainable_parameters : option (M unit)
}.

Definition train (m : nn_Module) : M unit := emit (ModuleTrain (module_id m)).

(** [m.print_trainable_parameters()]: the attribute lookup comes first. *)
Definition call_print_trainable_parameters (m : nn_Module) : M unit :=
  match print_trainable_parameters m with
  | Some method => method
  | None => raise (AttributeError "print_trainable_parameters")
  end.

(** [xturing.engines.base.BaseEngine]; [engine_id] is the object's identity. *)
Record BaseEngine : Type := {
  engine_id : nat;
  model : nn_Module;
  engine_training_step : batch -> M tensor;
  engine_validation_step : batch -> M tensor;
  save : string -> M unit
}.

Record BaseDataset : Type := { dataset_id : nat; len : nat }.

Record BasePreprocessor : Type := { preprocessor_id : nat }.

(** Optimizers and the schedule, as constructed: class, parameters, rate. *)
Inductive optimizer_class : Type := AdamW | Adam | DeepSpeedCPUAdam.

Record optimizer : Type := {
  opt_class : optimizer_class;
  opt_params : list nat;
  lr : float
}.

Inductive lr_scheduler : Type := LinearLR (opt : optimizer).

(** What a dotted name evaluates to before it is called: a class, a module,
    or nothing, when the owner has no such attribute. *)
Inductive py_name : Type :=
| PyClass (c : optimizer_class)
| PyModule (qualname : string)
| PyMissing (owner attr : string).

(** The installed torch.  The package [torch.optim] imports its classes from
    submodules [adam.py], [adamw.py], ...; a release either leaves the
    submodules' names in the package namespace or deletes them after the
    imports.  The class is [torch.optim.Adam] in both. *)
Inductive torch_package : Type :=
| KeepsSubmoduleNames
| DeletesSubmoduleNames.

Definition torch_optim_AdamW : py_name := PyClass AdamW.

(** [torch.optim.adam], in lower case. *)
Definition torch_optim_adam (torch : torch_package) : py_name :=
  match torch with
  | KeepsSubmoduleNames => PyModule "torch.optim.adam"
  | DeletesSubmoduleNames => PyMissing "torch.optim" "adam"
  end.

Definition deepspeed_ops_adam_DeepSpeedCPUAdam : py_name := PyClass DeepSpeedCPUAdam.

(** Whether a class's [__init__] checks [0.0 <= lr] itself: the classes of
    [torch.optim] do, [DeepSpeedCPUAdam] hands its arguments on. *)
Definition checks_learning_rate (c : optimizer_class) : bool :=
  match c with
  | AdamW | Adam => true
  | DeepSpeedCPUAdam => false
  end.

(** [c(params, lr=rate)] for a class [c]: its own check of the rate, where
    it has one (a rate that is negative or not a number fails it), then
    [torch.optim.Optimizer.__init__], which refuses an empty parameter
    list. *)
Definition optimizer_init (c : optimizer_class) (params : list nat)
  (rate : float) : M optimizer :=
  if checks_learning_rate c && negb (PrimFloat.leb 0%float rate) then
    raise (ValueError "Invalid learning rate")
  else
    match params with
    | [] => raise (ValueError "optimizer got an empty parameter list")
    | _ :: _ =>
        ret {| opt_class := c; opt_params := params; lr := rate |}
    end.

(** [f(params, lr=rate)]: the name [f] is evaluated, then called. *)
Definition call_optimizer (f : py_name) (params : list nat) (rate : float)
  : M optimizer :=
  match f with
  | PyClass c => optimizer_init c params rate
  | PyModule _ => raise (TypeError "'module' object is not callable")
  | PyMissing owner attr => raise (AttributeError attr)
  end.

(** [datetime.timedelta(seconds=n)]: a duration is kept as days, seconds and
    microseconds, with at most 999999999 days on either side. *)
Record timedelta : Type := { total_seconds : Z }.

Definition timedelta_in_range (n : Z) : bool :=
  ((-86400 * 999999999 <=? n) && (n <? 86400 * 1000000000))%Z.

Definition datetime_timedelta (seconds : Z) : M timedelta :=
  if timedelta_in_range seconds then ret {| total_seconds := seconds |}
  else raise OverflowError.

(** [pytorch_lightning.callbacks] *)
Inductive callback : Type :=
| LearningRateFinder
| Timer (duration : timedelta)
| ModelCheckpoint (dirpath : option string) (save_on_train_epoch_end : option bool)
| UserCallback (id : nat).

Definition is_Timer (c : callback) : bool :=
  match c with Timer _ => true | _ => false end.

Definition is_ModelCheckpoint (c : callback) : bool :=
  match c with ModelCheckpoint _ _ => true | _ => false end.

Inductive logger_arg : Type :=
| LoggerFlag (b : bool)
| LoggerObject (id : nat)
| LoggerObjects (ids : list nat).

(** [pathlib.Path] *)
Definition Path_exists (p : string) : M bool :=
  fun w => (Ok (existsb (String.eqb p) (paths w)), w).

Definition Path_mkdir (p : string) : M unit :=
  fun w => (Ok tt, mkWorld (trace w ++ [Mkdir p]) (p :: paths w)).

(** [torch.utils.data.DataLoader]: the arguments it was built with. *)
Module DataLoader.

Record t : Type := {
  dataset : BaseDataset;
  collate_fn : option BasePreprocessor;
  shuffle : bool;
  num_workers : Z;
  pin_memory : bool;
  batch_size : Z
}.

End DataLoader.

(** [pytorch_lightning.Trainer]: the keyword arguments it was built with
    ([None] for one that was not passed). *)
Module Trainer.

Record t : Type := {
  num_nodes : Z;
  accelerator : string;
  strategy : option string;
  precision : option Z;
  max_epochs : Z;
  callbacks : list callback;
  enable_checkpointing : bool;
  log_every_n_steps : Z;
  logger : logger_arg
}.

(** The driver adds a default [ModelCheckpoint] when checkpointing is on and
    the caller passed none; its [checkpoint_callback] property is the first
    [ModelCheckpoint] it then holds, else [None]. *)
Definition all_callbacks (tr : t) : list callback :=
  callbacks tr ++
  (if enable_checkpointing tr && negb (existsb is_ModelCheckpoint (callbacks tr))
   then [ModelCheckpoint None None] else []).

Definition checkpoint_callback (tr : t) : option callback :=
  find is_ModelCheckpoint (all_callbacks tr).

End Trainer.

(* ===================================================================== *)
(** ** class TuringLightningModule *)
(* ===================================================================== *)

Module TuringLightningModule.

Record t : Type := {
  model_engine : BaseEngine;
  pytorch_model : nn_Module;
  train_dataset : BaseDataset;
  val_dataset : BaseDataset;
  train_preprocessor : option BasePreprocessor;
  val_preprocessor : option BasePreprocessor;
  batch_size : Z;
  learning_rate : float;
  optimizer_name : string;
  saved_path : string;
  losses : list float;
  val_losses : list float
}.

Definition __init__
  (model_engine : BaseEngine) (train_dataset val_dataset : BaseDataset)
  (train_preprocessor val_preprocessor : option BasePreprocessor)
  (batch_size : Z) (learning_rate : float) (optimizer_name saved_path : string)
  : t :=
  {| model_engine := model_engine;
     pytorch_model := model model_engine;
     train_dataset := train_dataset;
     val_dataset := val_dataset;
     train_preprocessor := train_preprocessor;
     val_preprocessor := val_preprocessor;
     batch_size := batch_size;
     learning_rate := learning_rate;
     optimizer_name := optimizer_name;
     saved_path := saved_path;
     losses := [];
     val_losses := [] |}.

(** The local [optimizer] is bound by one of three branches, or by none:
    there is no [else]. *)
Definition configure_optimizers (torch : torch_package) (self : t)
  : M (list optimizer * list lr_scheduler) :=
  optimizer <-
    (if optimizer_name self =? "adamw" then
       o <- call_optimizer torch_optim_AdamW
              (parameters (pytorch_model self)) (learning_rate self) ;;
       ret (Some o)
     else if optimizer_name self =? "adam" then
       o <- call_optimizer (torch_optim_adam torch)
              (parameters (pytorch_model self)) (learning_rate self) ;;
       ret (Some o)
     else if optimizer_name self =? "cpu_adam" then
       o <- call_optimizer deepspeed_ops_adam_DeepSpeedCPUAdam
              (parameters (pytorch_model self)) (learning_rate self) ;;
       ret (Some o)
     else ret None) ;;
  print (optimizer_name self) ;;
  opt <- read_local "optimizer" optimizer ;;
  let lr_scheduler := LinearLR opt in
  ret ([opt], [lr_scheduler]).

(** [self.log(name, value, prog_bar=True)] *)
Definition log (name : string) (value : float) (prog_bar : bool) : M unit :=
  emit (ProgressLog name value prog_bar).

Definition set_losses (self : t) (l : list float) : t :=
  {| model_engine := model_engine self;
     pytorch_model := pytorch_model self;
     train_dataset := train_dataset self;
     val_dataset := val_dataset self;
     train_preprocessor := train_preprocessor self;
     val_preprocessor := val_preprocessor self;
     batch_size := batch_size self;
     learning_rate := learning_rate self;
     optimizer_name := optimizer_name self;
     saved_path := saved_path self;
     losses := l;
     val_losses := val_losses self |}.

Definition set_val_losses (self : t) (l : list float) : t :=
  {| model_engine := model_engine self;
     pytorch_model := pytorch_model self;
     train_dataset := train_dataset self;
     val_dataset := val_dataset self;
     train_preprocessor := train_preprocessor self;
     val_preprocessor := val_preprocessor self;
     batch_size := batch_size self;
     learning_rate := learning_rate self;
     optimizer_name := optimizer_name self;
     saved_path := saved_path self;
     losses := losses self;
     val_losses := l |}.

(** A method that mutates [self] returns the object after the call together
    with the value it returns. *)
Definition training_step (self : t) (b : batch) (batch_idx : nat)
  : M (t * pyval) :=
  loss <- engine_training_step (model_engine self) b ;;
  let self := set_losses self (losses self ++ [item loss]) in
  log "loss" (item loss) true ;;
  ret (self, PyTensor loss).

(** No [return]: the method hands back [None]. *)
Definition validation_step (self : t) (b : batch) (batch_idx : nat)
  : M (t * pyval) :=
  loss <- engine_validation_step (model_engine self) b ;;
  let self := set_val_losses self (val_losses self ++ [item loss]) in
  log "val_loss" (item loss) true ;;
  ret (self, PyNone).

Definition on_save_checkpoint (self : t) : M unit :=
  save (model_engine self) (saved_path self).

(** The attributes [train_dl] and [val_dl]: an object has them only once
    the method that assigns them has run. *)
Record loader_attrs : Type := {
  train_dl : option DataLoader.t;
  val_dl : option DataLoader.t
}.

Definition no_loaders : loader_attrs := {| train_dl := None; val_dl := None |}.

(** Each method builds a loader, stores it on [self] and returns it. *)
Definition train_dataloader (self : t) (attrs : loader_attrs)
  : loader_attrs * DataLoader.t :=
  let dl :=
    {| DataLoader.dataset := train_dataset self;
       DataLoader.collate_fn := train_preprocessor self;
       DataLoader.shuffle := true;
       DataLoader.num_workers := 1;
       DataLoader.pin_memory := true;
       DataLoader.batch_size := batch_size self |} in
  ({| train_dl := Some dl; val_dl := val_dl attrs |}, dl).

Definition val_dataloader (self : t) (attrs : loader_attrs)
  : loader_attrs * DataLoader.t :=
  let dl :=
    {| DataLoader.dataset := val_dataset self;
       DataLoader.collate_fn := val_preprocessor self;
       DataLoader.shuffle := true;
       DataLoader.num_workers := 1;
       DataLoader.pin_memory := true;
       DataLoader.batch_size := batch_size self |} in
  ({| train_dl := train_dl attrs; val_dl := Some dl |}, dl).

End TuringLightningModule.

(** ** The run driver, seen from the module

    [Trainer.fit] is pytorch_lightning's.  Whatever it does to the module it
    does through the module's hooks, so a run is the list of hook calls the
    driver decides to make. *)
Inductive hook_call : Type :=
| CallConfigureOptimizers
| CallTrainingStep (b : batch) (batch_idx : nat)
| CallValidationStep (b : batch) (batch_idx : nat)
| CallOnSaveCheckpoint.

Definition run_hook (torch : torch_package) (h : hook_call)
  (m : TuringLightningModule.t)
  : M TuringLightningModule.t :=
  match h with
  | CallConfigureOptimizers =>
      TuringLightningModule.configure_optimizers torch m ;; ret m
  | CallTrainingStep b i =>
      r <- TuringLightningModule.training_step m b i ;; ret (fst r)
  | CallValidationStep b i =>
      r <- TuringLightningModule.validation_step m b i ;; ret (fst r)
  | CallOnSaveCheckpoint =>
      TuringLightningModule.on_save_checkpoint m ;; ret m
  end.

Fixpoint run_hooks (torch : torch_package) (hs : list hook_call)
  (m : TuringLightningModule.t)
  : M TuringLightningModule.t :=
  match hs with
  | [] => ret m
  | h :: hs' => m' <- run_hook torch h m ;; run_hooks torch hs' m'
  end.

(* ===================================================================== *)
(** ** class LightningTrainer *)
(* ===================================================================== *)

Module LightningTrainer.

Definition config_name : string := "lightning_trainer".

(** The constructor's arguments. *)
Record args : Type := {
  model_engine : BaseEngine;
  train_dataset : BaseDataset;
  val_dataset : BaseDataset;
  train_preprocessor : BasePreprocessor;
  val_preprocessor : BasePreprocessor;
  max_epochs : Z;
  batch_size : Z;
  learning_rate : float;
  optimizer_name : string;
  use_lora : bool;
  use_deepspeed : bool;
  max_training_time_in_secs : option Z;
  lora_type : Z;
  extra_callbacks : list callback;
  logger : logger_arg
}.

(** The signature's defaults around the five required arguments. *)
Definition with_defaults
  (model_engine : BaseEngine) (train_dataset val_dataset : BaseDataset)
  (train_preprocessor val_preprocessor : BasePreprocessor) : args :=
  {| model_engine := model_engine;
     train_dataset := train_dataset;
     val_dataset := val_dataset;
     train_preprocessor := train_preprocessor;
     val_preprocessor := val_preprocessor;
     max_epochs := 3;
     batch_size := 2;
     learning_rate := 0x1.0624dd2f1a9fcp-10%float;
     optimizer_name := "adamw";
     use_lora := false;
     use_deepspeed := false;
     max_training_time_in_secs := None;
     lora_type := 16;
     extra_callbacks := [];
     logger := LoggerFlag true |}.

Record t : Type := {
  lightning_model : TuringLightningModule.t;
  trainer : Trainer.t
}.

(** [DEFAULT_DEVICE] is imported from [xturing.config]: the globals [g]. *)
Definition __init__ (g : config.globals) (a : args) : M t :=
  let lightning_model :=
    TuringLightningModule.__init__
      (model_engine a) (train_dataset a) (val_dataset a)
      (Some (train_preprocessor a)) (Some (val_preprocessor a))
      (batch_size a) (learning_rate a) (optimizer_name a) "saved_model" in
  let checkpoints_dir_path := "saved_model" in
  present <- Path_exists checkpoints_dir_path ;;
  (if negb present then Path_mkdir checkpoints_dir_path else ret tt) ;;
  let training_callbacks : list callback := [] in
  let training_callbacks :=
    if (100 <? len (train_dataset a))%nat
    then training_callbacks ++ [LearningRateFinder]
    else training_callbacks in
  training_callbacks <-
    (match max_training_time_in_secs a with
     | Some secs =>
         d <- datetime_timedelta secs ;;
         ret (training_callbacks ++ [Timer d])
     | None => ret training_callbacks
     end) ;;
  train (model (model_engine a)) ;;
  try_except
    (call_print_trainable_parameters (model (model_engine a)))
    is_AttributeError
    (ret tt) ;;
  let trainer :=
    if config.type (config.DEFAULT_DEVICE g) =? "cpu" then
      {| Trainer.num_nodes := 1;
         Trainer.accelerator := "cpu";
         Trainer.strategy := None;
         Trainer.precision := None;
         Trainer.max_epochs := max_epochs a;
         Trainer.callbacks := training_callbacks;
         Trainer.enable_checkpointing := false;
         Trainer.log_every_n_steps := 50;
         Trainer.logger := logger a |}
    else if negb (use_lora a) && negb (use_deepspeed a) then
      {| Trainer.num_nodes := 1;
         Trainer.accelerator := "gpu";
         Trainer.strategy := None;
         Trainer.precision := None;
         Trainer.max_epochs := max_epochs a;
         Trainer.callbacks := training_callbacks;
         Trainer.enable_checkpointing := true;
         Trainer.log_every_n_steps := 50;
         Trainer.logger := logger a |}
    else
      let training_callbacks :=
        [ModelCheckpoint (Some checkpoints_dir_path) (Some true)] in
      let strategy := "auto" in
      let training_callbacks := training_callbacks ++ extra_callbacks a in
      {| Trainer.num_nodes := 1;
         Trainer.accelerator := "gpu";
         Trainer.strategy := Some strategy;
         Trainer.precision := Some (lora_type a);
         Trainer.max_epochs := max_epochs a;
         Trainer.callbacks := training_callbacks;
         Trainer.enable_checkpointing := true;
         Trainer.log_every_n_steps := 50;
         Trainer.logger := logger a |} in
  ret {| lightning_model := lightning_model; trainer := trainer |}.

(** [self.trainer.fit(self.lightning_model)], the driver making the hook
    calls [run]; then the expression statement that reads
    [best_model_path] and drops it.  The method has no [return]. *)
Definition fit (torch : torch_package) (run : list hook_call) (self : t)
  : M (t * pyval) :=
  m <- run_hooks torch run (lightning_model self) ;;
  let self := {| lightning_model := m; trainer := trainer self |} in
  (match Trainer.checkpoint_callback (trainer self) with
   | Some _ => emit ReadBestModelPath
   | None => ret tt
   end) ;;
  ret (self, PyNone).

Definition engine (self : t) : BaseEngine :=
  TuringLightningModule.model_engine (lightning_model self).

End LightningTrainer.

(* ===================================================================== *)
(** ** Concrete objects used to run the definitions *)
(* ===================================================================== *)

Module Samples.

Definition w0 : world := mkWorld [] [].

Definition loss : tensor := {| tensor_id := 7; item := 0.5%float |}.

(** A model with three parameters and no [print_trainable_parameters]. *)
Definition plain_model : nn_Module :=
  {| module_id := 1; parameters := [10; 11; 12]%nat;
     print_trainable_parameters := None |}.

Definition plain_engine : BaseEngine :=
  {| engine_id := 2;
     model := plain_model;
     engine_training_step := fun _ => ret loss;
     engine_validation_step := fun _ => ret loss;
     save := fun _ => ret tt |}.

Definition dataset (n : nat) : BaseDataset := {| dataset_id := 3; len := n |}.

Definition preprocessor : BasePreprocessor := {| preprocessor_id := 4 |}.

Definition module_named (name : string) : TuringLightningModule.t :=
  TuringLightningModule.__init__ plain_engine (dataset 10) (dataset 10)
    None None 2 0x1.a36e2eb1c432dp-15%float name "saved_model".

Definition args_of (n : nat) (secs : option Z) (lora : bool)
  : LightningTrainer.args :=
  {| LightningTrainer.model_engine := plain_engine;
     LightningTrainer.train_dataset := dataset n;
     LightningTrainer.val_dataset := dataset 10;
     LightningTrainer.train_preprocessor := preprocessor;
     LightningTrainer.val_preprocessor := preprocessor;
     LightningTrainer.max_epochs := 1;
     LightningTrainer.batch_size := 2;
     LightningTrainer.learning_rate := 0x1.0624dd2f1a9fcp-10%float;
     LightningTrainer.optimizer_name := "adamw";
     LightningTrainer.use_lora := lora;
     LightningTrainer.use_deepspeed := false;
     LightningTrainer.max_training_time_in_secs := secs;
     LightningTrainer.lora_type := 16;
     LightningTrainer.extra_callbacks := [];
     LightningTrainer.logger := LoggerFlag true |}.

(** One epoch over two batches, with a validation pass. *)
Definition one_epoch : list hook_call :=
  [CallConfigureOptimizers;
   CallTrainingStep (Batch 0) 0; CallTrainingStep (Batch 1) 1;
   CallValidationStep (Batch 2) 0].

(** A caller with a callback of its own, and LoRA on or off. *)
Definition args_with_extra (lora : bool) : LightningTrainer.args :=
  {| LightningTrainer.model_engine := plain_engine;
     LightningTrainer.train_dataset := dataset 200;
     LightningTrainer.val_dataset := dataset 10;
     LightningTrainer.train_preprocessor := preprocessor;
     LightningTrainer.val_preprocessor := preprocessor;
     LightningTrainer.max_epochs := 1;
     LightningTrainer.batch_size := 2;
     LightningTrainer.learning_rate := 0x1.0624dd2f1a9fcp-10%float;
     LightningTrainer.optimizer_name := "adamw";
     LightningTrainer.use_lora := lora;
     LightningTrainer.use_deepspeed := false;
     LightningTrainer.max_training_time_in_secs := Some 60%Z;
     LightningTrainer.lora_type := 16;
     LightningTrainer.extra_callbacks := [UserCallback 9];
     LightningTrainer.logger := LoggerFlag true |}.

(** A caller who asks for an optimizer by a given name. *)
Definition args_named (name : string) : LightningTrainer.args :=
  {| LightningTrainer.model_engine := plain_engine;
     LightningTrainer.train_dataset := dataset 10;
     LightningTrainer.val_dataset := dataset 10;
     LightningTrainer.train_preprocessor := preprocessor;
     LightningTrainer.val_preprocessor := preprocessor;
     LightningTrainer.max_epochs := 1;
     LightningTrainer.batch_size := 2;
     LightningTrainer.learning_rate := 0x1.0624dd2f1a9fcp-10%float;
     LightningTrainer.optimizer_name := name;
     LightningTrainer.use_lora := false;
     LightningTrainer.use_deepspeed := false;
     LightningTrainer.max_training_time_in_secs := None;
     LightningTrainer.lora_type := 16;
     LightningTrainer.extra_callbacks := [];
     LightningTrainer.logger := LoggerFlag true |}.

(** An engine whose training step fails on every batch. *)
Definition failing_engine : BaseEngine :=
  {| engine_id := 5;
     model := plain_model;
     engine_training_step := fun _ => raise (OtherError "CUDA out of memory");
     engine_validation_step := fun _ => ret loss;
     save := fun _ => ret tt |}.

Definition args_failing : LightningTrainer.args :=
  {| LightningTrainer.model_engine := failing_engine;
     LightningTrainer.train_dataset := dataset 10;
     LightningTrainer.val_dataset := dataset 10;
     LightningTrainer.train_preprocessor := preprocessor;
     LightningTrainer.val_preprocessor := preprocessor;
     LightningTrainer.max_epochs := 1;
     LightningTrainer.batch_size := 2;
     LightningTrainer.learning_rate := 0x1.0624dd2f1a9fcp-10%float;
     LightningTrainer.optimizer_name := "adamw";
     LightningTrainer.use_lora := false;
     LightningTrainer.use_deepspeed := false;
     LightningTrainer.max_training_time_in_secs := None;
     LightningTrainer.lora_type := 16;
     LightningTrainer.extra_callbacks := [];
     LightningTrainer.logger := LoggerFlag true |}.

Definition mps_only : config.hardware :=
  {| config.cuda_available := false; config.mps_available := true |}.

Definition cpu_globals : config.globals :=
  {| config.DEFAULT_DEVICE := config.torch_device "cpu";
     config.DEFAULT_DTYPE := config.float32;
     config.IS_INTERACTIVE := false |}.

Definition cuda_globals : config.globals :=
  {| config.DEFAULT_DEVICE := config.torch_device "cuda";
     config.DEFAULT_DTYPE := config.float16;
     config.IS_INTERACTIVE := false |}.

End Samples.

(* ===================================================================== *)
(** ** Vocabulary of the statements *)
(* ===================================================================== *)

(** The three branches of the constructor that build the run driver. *)
Inductive strategy_kind : Type :=
| CpuStrategy
| PlainGpuStrategy
| OffloadStrategy.

Definition strategy_of (g : config.globals) (a : LightningTrainer.args)
  : strategy_kind :=
  if config.type (config.DEFAULT_DEVICE g) =? "cpu" then CpuStrategy
  else if negb (LightningTrainer.use_lora a)
          && negb (LightningTrainer.use_deepspeed a)
       then PlainGpuStrategy
       else OffloadStrategy.

(** The list the constructor has appended to when it reaches the branches. *)
Definition conditional_callbacks (a : LightningTrainer.args) : list callback :=
  (if (100 <? len (LightningTrainer.train_dataset a))%nat
   then [LearningRateFinder] else []) ++
  (match LightningTrainer.max_training_time_in_secs a with
   | Some secs => [Timer {| total_seconds := secs |}]
   | None => []
   end).

(** The world once the checkpoint directory is there. *)
Definition with_saved_model_dir (w : world) : world :=
  if existsb (String.eqb "saved_model") (paths w) then w
  else mkWorld (trace w ++ [Mkdir "saved_model"]) ("saved_model" :: paths w).

(** The world in which the parameter summary is attempted: the directory is
    there and the model has just been put in training mode. *)
Definition at_summary (a : LightningTrainer.args) (w : world) : world :=
  mkWorld
    (trace (with_saved_model_dir w) ++
     [ModuleTrain (module_id (model (LightningTrainer.model_engine a)))])
    (paths (with_saved_model_dir w)).

(** The duration, when one is given, is one [datetime.timedelta] holds. *)
Definition duration_representable (a : LightningTrainer.args) : bool :=
  match LightningTrainer.max_training_time_in_secs a with
  | Some secs => timedelta_in_range secs
  | None => true
  end.

(** How many training steps, and validation steps, a run makes. *)
Fixpoint training_steps (hs : list hook_call) : nat :=
  match hs with
  | [] => 0
  | CallTrainingStep _ _ :: hs' => S (training_steps hs')
  | _ :: hs' => training_steps hs'
  end.

Fixpoint validation_steps (hs : list hook_call) : nat :=
  match hs with
  | [] => 0
  | CallValidationStep _ _ :: hs' => S (validation_steps hs')
  | _ :: hs' => validation_steps hs'
  end.

(** The values shown on the progress display under a name, in order. *)
Fixpoint logged (name : string) (t : list event) : list float :=
  match t with
  | [] => []
  | ProgressLog n v _ :: t' =>
      if n =? name then v :: logged name t' else logged name t'
  | _ :: t' => logged name t'
  end.

(** Everything of a module but its two histories. *)
Definition same_configuration (m m' : TuringLightningModule.t) : Prop :=
  TuringLightningModule.model_engine m' = TuringLightningModule.model_engine m /\
  TuringLightningModule.pytorch_model m' = TuringLightningModule.pytorch_model m /\
  TuringLightningModule.train_dataset m' = TuringLightningModule.train_dataset m /\
  TuringLightningModule.val_dataset m' = TuringLightningModule.val_dataset m /\
  TuringLightningModule.train_preprocessor m' =
    TuringLightningModule.train_preprocessor m /\
  TuringLightningModule.val_preprocessor m' =
    TuringLightningModule.val_preprocessor m /\
  TuringLightningModule.batch_size m' = TuringLightningModule.batch_size m /\
  TuringLightningModule.learning_rate m' = TuringLightningModule.learning_rate m /\
  TuringLightningModule.optimizer_name m' = TuringLightningModule.optimizer_name m /\
  TuringLightningModule.saved_path m' = TuringLightningModule.saved_path m.

(** A computation that writes nothing to the progress display. *)
Definition keeps_progress_display {A} (c : M A) : Prop :=
  forall (name : string) (w : world),
    logged name (trace (snd (c w))) = logged name (trace w).

(** An engine that leaves the progress display to the module. *)
Definition engine_keeps_progress_display (e : BaseEngine) : Prop :=
  (forall b, keeps_progress_display (engine_training_step e b)) /\
  (forall b, keeps_progress_display (engine_validation_step e b)) /\
  (forall p, keeps_progress_display (save e p)).

(** What a run that returned has done: the configuration is kept,
    each history grows by what the steps appended, and, with an engine that
    leaves the progress display alone, the display grows by the same. *)
Record hook_effect (m m' : TuringLightningModule.t) (w w' : world)
  (lt lv : list float) : Prop := {
  effect_configuration : same_configuration m m';
  effect_losses :
    TuringLightningModule.losses m' = TuringLightningModule.losses m ++ lt;
  effect_val_losses :
    TuringLightningModule.val_losses m' =
    TuringLightningModule.val_losses m ++ lv;
  effect_display :
    engine_keeps_progress_display (TuringLightningModule.model_engine m) ->
    logged "loss" (trace w') = logged "loss" (trace w) ++ lt /\
    logged "val_loss" (trace w') = logged "val_loss" (trace w) ++ lv
}.

(* ===================================================================== *)
(** ** Facts about the runtime *)
(* ===================================================================== *)

Lemma stdout_of_app (t1 t2 : list event) :
  stdout_of (t1 ++ t2) = stdout_of t1 ++ stdout_of t2.
Proof.
  induction t1 as [|e t1 IH]; [reflexivity|].
  destruct e; simpl; rewrite IH; reflexivity.
Qed.

Lemma probes_of_app (t1 t2 : list event) :
  probes_of (t1 ++ t2) = probes_of t1 ++ probes_of t2.
Proof.
  induction t1 as [|e t1 IH]; [reflexivity|].
  destruct e; simpl; rewrite IH; reflexivity.
Qed.

Lemma bind_Ok {A B} (c : M A) (k : A -> M B) (w w' : world) (a : A) :
  c w = (Ok a, w') -> bind c k w = k a w'.
Proof. intros H. unfold bind. rewrite H. reflexivity. Qed.

Lemma bind_Raise {A B} (c : M A) (k : A -> M B) (w w' : world) (e : exn) :
  c w = (Raise e, w') -> bind c k w = (Raise e, w').
Proof. intros H. unfold bind. rewrite H. reflexivity. Qed.

(** A computation that returns, bound to a continuation that returns, went
    through an intermediate world. *)
Lemma bind_inv_Ok {A B} (c : M A) (k : A -> M B) (w w2 : world) (b : B) :
  bind c k w = (Ok b, w2) ->
  exists a w1, c w = (Ok a, w1) /\ k a w1 = (Ok b, w2).
Proof.
  unfold bind. destruct (c w) as [[a|e] w1]; intros H.
  - exists a, w1. split; [reflexivity | exact H].
  - discriminate H.
Qed.

(* ===================================================================== *)
(** ** The device and precision selector *)
(* ===================================================================== *)

(** C5: the module body probes CUDA first and the unified-memory accelerator
    only when CUDA is absent, takes the first one available and otherwise
    the CPU; the default precision is float16 exactly when CUDA was taken
    and float32 otherwise; the warning is printed once exactly when the CPU
    was taken, and nothing else is printed; the body always returns. *)
Theorem import_module_selects_device
  (hw : config.hardware) (interactive : bool) (w : world) :
  exists g w',
    config.import_module hw interactive w = (Ok g, w') /\
    config.type (config.DEFAULT_DEVICE g) =
      (if config.cuda_available hw then "cuda"
       else if config.mps_available hw then "mps" else "cpu") /\
    probes_of (trace w') =
      probes_of (trace w) ++
      (if config.cuda_available hw then ["cuda"] else ["cuda"; "mps"]) /\
    (config.DEFAULT_DTYPE g = config.float16 <->
     config.type (config.DEFAULT_DEVICE g) = "cuda") /\
    (config.DEFAULT_DTYPE g = config.float32 <->
     config.type (config.DEFAULT_DEVICE g) <> "cuda") /\
    stdout_of (trace w') =
      stdout_of (trace w) ++
      (if config.type (config.DEFAULT_DEVICE g) =? "cpu"
       then [config.warning] else []) /\
    config.IS_INTERACTIVE g = interactive /\
    paths w' = paths w.
Proof.
  destruct hw as [cuda mps]. destruct w as [tr ps].
  destruct cuda; [| destruct mps];
    (do 2 eexists; split; [cbn; reflexivity|]); cbn;
    repeat rewrite stdout_of_app; repeat rewrite probes_of_app; cbn;
    repeat rewrite app_nil_r; repeat rewrite <- app_assoc; cbn;
    repeat split; try reflexivity; try discriminate; try congruence.
Qed.

(** C10: [assert_not_cpu_int8] raises the assertion failure with its message
    exactly when the selected device is the CPU; on CUDA or on the
    unified-memory accelerator it returns; either way it leaves the world as
    it found it. *)
Theorem assert_not_cpu_int8_iff_cpu (g : config.globals) (w : world) :
  (fst (config.assert_not_cpu_int8 g w) =
     Raise (AssertionError "Int8 models are not supported on CPU") <->
   config.type (config.DEFAULT_DEVICE g) = "cpu") /\
  ((exists e, fst (config.assert_not_cpu_int8 g w) = Raise e) <->
   config.type (config.DEFAULT_DEVICE g) = "cpu") /\
  (config.type (config.DEFAULT_DEVICE g) = "cuda" \/
   config.type (config.DEFAULT_DEVICE g) = "mps" ->
   config.assert_not_cpu_int8 g w = (Ok tt, w)) /\
  snd (config.assert_not_cpu_int8 g w) = w.
Proof.
  unfold config.assert_not_cpu_int8.
  destruct (String.eqb_spec (config.type (config.DEFAULT_DEVICE g)) "cpu")
    as [Hcpu | Hnot]; cbn.
  - repeat split; auto.
    + exists (AssertionError "Int8 models are not supported on CPU"). reflexivity.
    + intros [H | H]; rewrite Hcpu in H; discriminate H.
  - repeat split; auto.
    + intros H. discriminate H.
    + intros H. contradiction.
    + intros [e H]. discriminate H.
    + intros H. contradiction.
Qed.

(* ===================================================================== *)
(** ** Optimizer and schedule selection *)
(* ===================================================================== *)

Lemma eqb_neq_false (s1 s2 : string) : s1 <> s2 -> (s1 =? s2) = false.
Proof. intros H. apply String.eqb_neq. exact H. Qed.

(** C1: for a name outside "adamw", "adam" and "cpu_adam" no branch binds
    the local [optimizer]; the name is printed, and the read of the local on
    the next line raises [UnboundLocalError], the unbound-reference failure,
    not a configuration error of the method's own. *)
Theorem configure_optimizers_unknown_name_unbound
  (torch : torch_package) (self : TuringLightningModule.t) (w : world) :
  TuringLightningModule.optimizer_name self <> "adamw" ->
  TuringLightningModule.optimizer_name self <> "adam" ->
  TuringLightningModule.optimizer_name self <> "cpu_adam" ->
  TuringLightningModule.configure_optimizers torch self w =
    (Raise (UnboundLocalError "optimizer"),
     mkWorld (trace w ++ [Stdout (TuringLightningModule.optimizer_name self)])
             (paths w)).
Proof.
  intros H1 H2 H3. unfold TuringLightningModule.configure_optimizers.
  rewrite (eqb_neq_false _ _ H1), (eqb_neq_false _ _ H2),
    (eqb_neq_false _ _ H3).
  reflexivity.
Qed.

Lemma configure_optimizers_unknown_name_unbound_witness :
  TuringLightningModule.optimizer_name (Samples.module_named "sgd") <> "adamw" /\
  TuringLightningModule.configure_optimizers KeepsSubmoduleNames
    (Samples.module_named "sgd") Samples.w0 =
    (Raise (UnboundLocalError "optimizer"), mkWorld [Stdout "sgd"] []).
Proof.
  split; [discriminate |].
  apply (configure_optimizers_unknown_name_unbound KeepsSubmoduleNames
           (Samples.module_named "sgd") Samples.w0); discriminate.
Defined.

(** C2: under the name "adam" the method evaluates [torch.optim.adam], in
    lower case, which is not the class [torch.optim.Adam]: where torch keeps
    the submodule's name the call of a module raises [TypeError], where it
    deletes the name the lookup raises [AttributeError].  Either way the
    method raises before anything is printed, and no optimizer or schedule
    is built. *)
Theorem configure_optimizers_adam_raises
  (torch : torch_package) (self : TuringLightningModule.t) (w : world) :
  TuringLightningModule.optimizer_name self = "adam" ->
  TuringLightningModule.configure_optimizers torch self w =
    (Raise (match torch with
            | KeepsSubmoduleNames =>
                TypeError "'module' object is not callable"
            | DeletesSubmoduleNames => AttributeError "adam"
            end), w).
Proof.
  intros H. unfold TuringLightningModule.configure_optimizers.
  rewrite H. destruct torch; reflexivity.
Qed.

Lemma configure_optimizers_adam_raises_witness :
  TuringLightningModule.configure_optimizers KeepsSubmoduleNames
    (Samples.module_named "adam") Samples.w0 =
    (Raise (TypeError "'module' object is not callable"), Samples.w0) /\
  TuringLightningModule.configure_optimizers DeletesSubmoduleNames
    (Samples.module_named "adam") Samples.w0 =
    (Raise (AttributeError "adam"), Samples.w0).
Proof.
  split.
  - apply (configure_optimizers_adam_raises KeepsSubmoduleNames
             (Samples.module_named "adam") Samples.w0). reflexivity.
  - apply (configure_optimizers_adam_raises DeletesSubmoduleNames
             (Samples.module_named "adam") Samples.w0). reflexivity.
Defined.

(** X1: under "adamw" and "cpu_adam" the method hands the model's parameters
    and the module's learning rate to the optimizer's constructor before it
    prints anything.  Where the constructor refuses them (under "adamw" a
    rate that fails [0.0 <= lr]; under either name an empty parameter list),
    its [ValueError] leaves the method with nothing printed.  Otherwise the
    method prints the name and returns one optimizer over those parameters
    at that rate, and one [LinearLR] schedule over that optimizer. *)
Theorem configure_optimizers_adamw_cpu_adam
  (torch : torch_package) (self : TuringLightningModule.t) (w : world) :
  TuringLightningModule.optimizer_name self = "adamw" \/
  TuringLightningModule.optimizer_name self = "cpu_adam" ->
  TuringLightningModule.configure_optimizers torch self w =
    if (TuringLightningModule.optimizer_name self =? "adamw") &&
       negb (PrimFloat.leb 0%float (TuringLightningModule.learning_rate self))
    then (Raise (ValueError "Invalid learning rate"), w)
    else
      match parameters (TuringLightningModule.pytorch_model self) with
      | [] =>
          (Raise (ValueError "optimizer got an empty parameter list"), w)
      | _ :: _ =>
          let opt :=
            {| opt_class :=
                 if TuringLightningModule.optimizer_name self =? "adamw"
                 then AdamW else DeepSpeedCPUAdam;
               opt_params :=
                 parameters (TuringLightningModule.pytorch_model self);
               lr := TuringLightningModule.learning_rate self |} in
          (Ok ([opt], [LinearLR opt]),
           mkWorld
             (trace w ++ [Stdout (TuringLightningModule.optimizer_name self)])
             (paths w))
      end.
Proof.
  intros [H | H]; unfold TuringLightningModule.configure_optimizers;
    rewrite H; cbn [String.eqb Ascii.eqb Bool.eqb andb];
    unfold call_optimizer, torch_optim_AdamW,
      deepspeed_ops_adam_DeepSpeedCPUAdam, optimizer_init;
    cbn [checks_learning_rate andb].
  - destruct (PrimFloat.leb 0 (TuringLightningModule.learning_rate self));
      [| reflexivity].
    destruct (parameters (TuringLightningModule.pytorch_model self));
      reflexivity.
  - destruct (parameters (TuringLightningModule.pytorch_model self));
      reflexivity.
Qed.

Lemma configure_optimizers_adamw_cpu_adam_witness :
  TuringLightningModule.configure_optimizers DeletesSubmoduleNames
    (Samples.module_named "adamw") Samples.w0 =
    (Ok ([{| opt_class := AdamW; opt_params := [10; 11; 12]%nat;
             lr := 0x1.a36e2eb1c432dp-15%float |}],
         [LinearLR {| opt_class := AdamW; opt_params := [10; 11; 12]%nat;
                      lr := 0x1.a36e2eb1c432dp-15%float |}]),
     mkWorld [Stdout "adamw"] []).
Proof.
  exact (configure_optimizers_adamw_cpu_adam DeletesSubmoduleNames
           (Samples.module_named "adamw") Samples.w0 (or_introl eq_refl)).
Defined.

(* ===================================================================== *)
(** ** Construction of the orchestrator *)
(* ===================================================================== *)

Import LightningTrainer.

Ltac unfold_py :=
  unfold bind, Path_exists, Path_mkdir, train, emit, try_except,
    datetime_timedelta, call_print_trainable_parameters, ret, raise in *.

(** What a construction that returned has built: the wrapped module, and a
    driver whose keyword arguments depend on the branch taken. *)
Lemma init_inv (g : config.globals) (a : args) (w w' : world) (self : t) :
  __init__ g a w = (Ok self, w') ->
  duration_representable a = true /\
  lightning_model self =
    TuringLightningModule.__init__
      (model_engine a) (train_dataset a) (val_dataset a)
      (Some (train_preprocessor a)) (Some (val_preprocessor a))
      (batch_size a) (learning_rate a) (optimizer_name a) "saved_model" /\
  Trainer.num_nodes (trainer self) = 1%Z /\
  Trainer.max_epochs (trainer self) = max_epochs a /\
  Trainer.log_every_n_steps (trainer self) = 50%Z /\
  Trainer.logger (trainer self) = logger a /\
  match strategy_of g a with
  | CpuStrategy =>
      Trainer.accelerator (trainer self) = "cpu" /\
      Trainer.enable_checkpointing (trainer self) = false /\
      Trainer.callbacks (trainer self) = conditional_callbacks a /\
      Trainer.strategy (trainer self) = None /\
      Trainer.precision (trainer self) = None
  | PlainGpuStrategy =>
      Trainer.accelerator (trainer self) = "gpu" /\
      Trainer.enable_checkpointing (trainer self) = true /\
      Trainer.callbacks (trainer self) = conditional_callbacks a /\
      Trainer.strategy (trainer self) = None /\
      Trainer.precision (trainer self) = None
  | OffloadStrategy =>
      Trainer.accelerator (trainer self) = "gpu" /\
      Trainer.enable_checkpointing (trainer self) = true /\
      Trainer.callbacks (trainer self) =
        ModelCheckpoint (Some "saved_model") (Some true) :: extra_callbacks a /\
      Trainer.strategy (trainer self) = Some "auto" /\
      Trainer.precision (trainer self) = Some (lora_type a)
  end.
Proof.
  unfold __init__, strategy_of, conditional_callbacks, duration_representable.
  intros H.
  destruct (100 <? len (train_dataset a))%nat;
  destruct (max_training_time_in_secs a) as [secs|];
  unfold_py;
  destruct (existsb (String.eqb "saved_model") (paths w));
  try destruct (timedelta_in_range secs);
  try discriminate H;
  destruct (print_trainable_parameters (model (model_engine a))) as [f|];
  cbn in H;
  match type of H with
  | context [f ?x] => destruct (f x) as [[[]|[]] w3]
  | _ => idtac
  end; cbn in H; try discriminate H;
  injection H as <- _;
  destruct (config.type (config.DEFAULT_DEVICE g) =? "cpu");
  destruct (negb (use_lora a) && negb (use_deepspeed a));
  cbn; repeat split; reflexivity.
Qed.

(** The constructor returns, or raises, as the guarded summary attempt does,
    once the duration is one a [timedelta] holds. *)
Lemma init_returns (g : config.globals) (a : args) (w w3 : world) :
  duration_representable a = true ->
  try_except (call_print_trainable_parameters (model (model_engine a)))
    is_AttributeError (ret tt) (at_summary a w) = (Ok tt, w3) ->
  exists self, __init__ g a w = (Ok self, w3).
Proof.
  unfold __init__, duration_representable, at_summary, with_saved_model_dir.
  intros Hd Hs.
  set (summary := try_except _ _ _) in *.
  destruct (100 <? len (train_dataset a))%nat;
  destruct (max_training_time_in_secs a) as [secs|];
  unfold bind, Path_exists, Path_mkdir, train, emit, datetime_timedelta,
    ret, raise;
  try rewrite Hd;
  destruct (existsb (String.eqb "saved_model") (paths w));
  cbn in *; rewrite Hs; eexists; reflexivity.
Qed.

Lemma init_propagates (g : config.globals) (a : args) (w w3 : world) (e : exn) :
  duration_representable a = true ->
  try_except (call_print_trainable_parameters (model (model_engine a)))
    is_AttributeError (ret tt) (at_summary a w) = (Raise e, w3) ->
  __init__ g a w = (Raise e, w3).
Proof.
  unfold __init__, duration_representable, at_summary, with_saved_model_dir.
  intros Hd Hs.
  set (summary := try_except _ _ _) in *.
  destruct (100 <? len (train_dataset a))%nat;
  destruct (max_training_time_in_secs a) as [secs|];
  unfold bind, Path_exists, Path_mkdir, train, emit, datetime_timedelta,
    ret, raise;
  try rewrite Hd;
  destruct (existsb (String.eqb "saved_model") (paths w));
  cbn in *; rewrite Hs; reflexivity.
Qed.

(** X2: a duration that [datetime.timedelta] cannot hold makes the
    constructor raise [OverflowError], in every branch: the timer is built
    before the device is looked at, and after the checkpoint directory. *)
Theorem init_overflow (g : config.globals) (a : args) (w : world) :
  duration_representable a = false ->
  __init__ g a w =
    (Raise OverflowError, with_saved_model_dir w).
Proof.
  unfold __init__, duration_representable, with_saved_model_dir.
  intros Hd.
  destruct (max_training_time_in_secs a) as [secs|]; [| discriminate Hd].
  unfold bind, Path_exists, Path_mkdir, datetime_timedelta, ret, raise, emit.
  rewrite Hd.
  destruct (existsb (String.eqb "saved_model") (paths w)); reflexivity.
Qed.

Lemma init_overflow_witness :
  duration_representable
    (Samples.args_of 10 (Some 100000000000000%Z) false) = false /\
  __init__ Samples.cpu_globals
    (Samples.args_of 10 (Some 100000000000000%Z) false) Samples.w0 =
    (Raise OverflowError, mkWorld [Mkdir "saved_model"] ["saved_model"]).
Proof.
  split; [reflexivity |].
  exact (init_overflow Samples.cpu_globals
           (Samples.args_of 10 (Some 100000000000000%Z) false) Samples.w0
           eq_refl).
Defined.

Lemma In_lr_finder_conditional (a : args) :
  In LearningRateFinder (conditional_callbacks a) <->
  100 < len (train_dataset a).
Proof.
  unfold conditional_callbacks.
  destruct (Nat.ltb_spec 100 (len (train_dataset a))) as [Hlt | Hge];
    destruct (max_training_time_in_secs a); cbn; split; intros H;
    try lia; auto;
    repeat (destruct H as [H | H]; try discriminate H); try contradiction.
Qed.

Lemma timers_of_conditional (a : args) :
  filter is_Timer (conditional_callbacks a) =
  match max_training_time_in_secs a with
  | Some secs => [Timer {| total_seconds := secs |}]
  | None => []
  end.
Proof.
  unfold conditional_callbacks.
  destruct (100 <? len (train_dataset a))%nat;
    destruct (max_training_time_in_secs a); reflexivity.
Qed.

Lemma no_checkpoint_in_conditional (a : args) :
  existsb is_ModelCheckpoint (conditional_callbacks a) = false.
Proof.
  unfold conditional_callbacks.
  destruct (100 <? len (train_dataset a))%nat;
    destruct (max_training_time_in_secs a); reflexivity.
Qed.

Lemma strategy_of_cpu (g : config.globals) (a : args) :
  config.type (config.DEFAULT_DEVICE g) = "cpu" -> strategy_of g a = CpuStrategy.
Proof. intros H. unfold strategy_of. rewrite H. reflexivity. Qed.

(** X15: in a construction that takes the CPU or the plain GPU branch, the
    learning-rate finder is in the driver's callback list exactly when the
    training dataset has more than 100 examples.  The third branch passes
    the checkpoint callback followed by the caller's extra callbacks and
    not the list the finder was appended to, so a finder is there exactly
    when the caller passed one, whatever the length. *)
Theorem lr_finder_iff_over_100_unless_rebuilt
  (g : config.globals) (a : args) (w w' : world) (self : t) :
  __init__ g a w = (Ok self, w') ->
  match strategy_of g a with
  | CpuStrategy | PlainGpuStrategy =>
      In LearningRateFinder (Trainer.callbacks (trainer self)) <->
      100 < len (train_dataset a)
  | OffloadStrategy =>
      Trainer.callbacks (trainer self) =
        ModelCheckpoint (Some "saved_model") (Some true) :: extra_callbacks a /\
      (In LearningRateFinder (Trainer.callbacks (trainer self)) <->
       In LearningRateFinder (extra_callbacks a))
  end.
Proof.
  intros H. apply init_inv in H.
  destruct H as (_ & _ & _ & _ & _ & _ & H).
  destruct (strategy_of g a).
  - destruct H as (_ & _ & -> & _). apply In_lr_finder_conditional.
  - destruct H as (_ & _ & -> & _). apply In_lr_finder_conditional.
  - destruct H as (_ & _ & -> & _). split; [reflexivity|].
    cbn. split; [intros [H | H]; [discriminate H | exact H] | auto].
Qed.

Lemma lr_finder_iff_over_100_unless_rebuilt_witness :
  exists self w',
    __init__ Samples.cpu_globals (Samples.args_of 101 None false) Samples.w0 =
      (Ok self, w') /\
    (In LearningRateFinder (Trainer.callbacks (trainer self)) <-> 100 < 101).
Proof.
  eexists. eexists. split; [lazy; reflexivity |].
  exact (lr_finder_iff_over_100_unless_rebuilt
           Samples.cpu_globals (Samples.args_of 101 None false) Samples.w0
           _ _ eq_refl).
Defined.

(** C3: the code departs from the claim in its third branch.  On a CUDA
    device with [use_lora] set and a training dataset of 101 examples the
    construction returns, and the callback list the driver is built with
    holds no learning-rate finder: the list the finder was appended to has
    been replaced. *)
Lemma lr_finder_absent_under_lora_over_100 :
  exists self w',
    __init__ Samples.cuda_globals (Samples.args_of 101 None true) Samples.w0 =
      (Ok self, w') /\
    100 < len (train_dataset (Samples.args_of 101 None true)) /\
    ~ In LearningRateFinder (Trainer.callbacks (trainer self)).
Proof.
  eexists. eexists. split; [lazy; reflexivity |]. split; [cbn; lia |].
  cbn. intros [H | H]; [discriminate H | exact H].
Qed.

(** X16: in a construction that takes the CPU or the plain GPU branch, the
    callback list holds no timer when [max_training_time_in_secs] is [None],
    and exactly one, of that many seconds, when it is an integer.  The
    third branch passes the checkpoint callback followed by the caller's
    extra callbacks and not the list the timer was appended to, so the
    timers there are the ones the caller passed. *)
Theorem timer_iff_duration_unless_rebuilt
  (g : config.globals) (a : args) (w w' : world) (self : t) :
  __init__ g a w = (Ok self, w') ->
  match strategy_of g a with
  | CpuStrategy | PlainGpuStrategy =>
      filter is_Timer (Trainer.callbacks (trainer self)) =
      match max_training_time_in_secs a with
      | None => []
      | Some secs => [Timer {| total_seconds := secs |}]
      end
  | OffloadStrategy =>
      Trainer.callbacks (trainer self) =
        ModelCheckpoint (Some "saved_model") (Some true) :: extra_callbacks a /\
      filter is_Timer (Trainer.callbacks (trainer self)) =
        filter is_Timer (extra_callbacks a)
  end.
Proof.
  intros H. apply init_inv in H.
  destruct H as (_ & _ & _ & _ & _ & _ & H).
  destruct (strategy_of g a).
  - destruct H as (_ & _ & -> & _). rewrite timers_of_conditional.
    destruct (max_training_time_in_secs a); reflexivity.
  - destruct H as (_ & _ & -> & _). rewrite timers_of_conditional.
    destruct (max_training_time_in_secs a); reflexivity.
  - destruct H as (_ & _ & -> & _). split; reflexivity.
Qed.

Lemma timer_iff_duration_unless_rebuilt_witness :
  exists self w',
    __init__ Samples.cpu_globals (Samples.args_of 10 (Some 3600%Z) false)
      Samples.w0 = (Ok self, w') /\
    filter is_Timer (Trainer.callbacks (trainer self)) =
      [Timer {| total_seconds := 3600 |}].
Proof.
  eexists. eexists. split; [lazy; reflexivity |].
  exact (timer_iff_duration_unless_rebuilt
           Samples.cpu_globals (Samples.args_of 10 (Some 3600%Z) false)
           Samples.w0 _ _ eq_refl).
Defined.

(** C4: the code departs from the claim in its third branch.  On a CUDA
    device with [use_lora] set and a duration of 3600 seconds the
    construction returns, and the callback list the driver is built with
    holds no timer: the list the timer was appended to has been replaced. *)
Lemma timer_absent_under_lora_with_duration :
  exists self w',
    __init__ Samples.cuda_globals (Samples.args_of 10 (Some 3600%Z) true)
      Samples.w0 = (Ok self, w') /\
    max_training_time_in_secs (Samples.args_of 10 (Some 3600%Z) true) =
      Some 3600%Z /\
    filter is_Timer (Trainer.callbacks (trainer self)) = [].
Proof.
  eexists. eexists. split; [lazy; reflexivity |]. split; reflexivity.
Qed.

(** C6: when the selected device is the CPU, the driver is built for one
    node on the "cpu" accelerator with checkpointing off; no checkpoint
    callback is among its callbacks, so its [checkpoint_callback] is [None];
    and [fit] is then the driver's run alone: it returns [None] whenever the
    run returns, and reads no checkpoint path. *)
Theorem cpu_driver_has_no_checkpointing
  (g : config.globals) (a : args) (w w' : world) (self : t) :
  config.type (config.DEFAULT_DEVICE g) = "cpu" ->
  __init__ g a w = (Ok self, w') ->
  Trainer.num_nodes (trainer self) = 1%Z /\
  Trainer.accelerator (trainer self) = "cpu" /\
  Trainer.enable_checkpointing (trainer self) = false /\
  existsb is_ModelCheckpoint (Trainer.all_callbacks (trainer self)) = false /\
  Trainer.checkpoint_callback (trainer self) = None /\
  forall (torch : torch_package) (run : list hook_call) (w1 : world),
    fit torch run self w1 =
    match run_hooks torch run (lightning_model self) w1 with
    | (Ok m, w2) =>
        (Ok ({| lightning_model := m; trainer := trainer self |}, PyNone), w2)
    | (Raise e, w2) => (Raise e, w2)
    end.
Proof.
  intros Hcpu H. apply init_inv in H.
  destruct H as (_ & _ & Hn & _ & _ & _ & H).
  rewrite (strategy_of_cpu g a Hcpu) in H.
  destruct H as (Hacc & Hchk & Hcbs & _).
  assert (Hall : Trainer.all_callbacks (trainer self) = conditional_callbacks a).
  { unfold Trainer.all_callbacks. rewrite Hchk, Hcbs. cbn. apply app_nil_r. }
  assert (Hnone : Trainer.checkpoint_callback (trainer self) = None).
  { unfold Trainer.checkpoint_callback. rewrite Hall.
    unfold conditional_callbacks.
    destruct (100 <? len (train_dataset a))%nat;
      destruct (max_training_time_in_secs a); reflexivity. }
  repeat split; auto.
  - rewrite Hall. apply no_checkpoint_in_conditional.
  - intros torch run w1. unfold fit, bind.
    destruct (run_hooks torch run (lightning_model self) w1) as [[m | e] w2];
      [cbn [trainer]; rewrite Hnone |]; reflexivity.
Qed.

Lemma cpu_driver_has_no_checkpointing_witness :
  exists self w',
    __init__ Samples.cpu_globals (Samples.args_of 10 None false) Samples.w0 =
      (Ok self, w') /\
    Trainer.accelerator (trainer self) = "cpu" /\
    Trainer.enable_checkpointing (trainer self) = false /\
    Trainer.checkpoint_callback (trainer self) = None /\
    exists self' w2,
      fit KeepsSubmoduleNames Samples.one_epoch self w' =
        (Ok (self', PyNone), w2) /\
      ~ In ReadBestModelPath (trace w2).
Proof.
  eexists. eexists. split; [lazy; reflexivity |].
  pose proof (cpu_driver_has_no_checkpointing
                Samples.cpu_globals (Samples.args_of 10 None false) Samples.w0
                _ _ eq_refl eq_refl) as (_ & Hacc & Hchk & _ & Hnone & Hfit).
  split; [exact Hacc |]. split; [exact Hchk |]. split; [exact Hnone |].
  eexists. eexists. split; [rewrite Hfit; lazy; reflexivity |].
  cbn. intros H.
  repeat (destruct H as [H | H]; [discriminate H |]). exact H.
Defined.

(** C9: once the duration is settled the constructor puts the model in
    training mode and then attempts the parameter summary in that world.  A
    model without the method makes the attempt raise [AttributeError], which
    is dropped: the constructor returns and the world is the one of the
    attempt.  A model with the method has it run; an [AttributeError] from
    inside it is dropped as well, and any other exception leaves the
    constructor. *)
Theorem init_trains_then_attempts_summary
  (g : config.globals) (a : args) (w : world) :
  duration_representable a = true ->
  trace (at_summary a w) =
    trace w ++
    (if existsb (String.eqb "saved_model") (paths w)
     then [] else [Mkdir "saved_model"]) ++
    [ModuleTrain (module_id (model (model_engine a)))] /\
  match print_trainable_parameters (model (model_engine a)) with
  | None => exists self, __init__ g a w = (Ok self, at_summary a w)
  | Some summary =>
      match summary (at_summary a w) with
      | (Ok _, w3) => exists self, __init__ g a w = (Ok self, w3)
      | (Raise e, w3) =>
          if is_AttributeError e
          then exists self, __init__ g a w = (Ok self, w3)
          else __init__ g a w = (Raise e, w3)
      end
  end.
Proof.
  intros Hd. split.
  - unfold at_summary, with_saved_model_dir.
    destruct (existsb (String.eqb "saved_model") (paths w)); cbn;
      [| rewrite <- app_assoc]; reflexivity.
  - destruct (print_trainable_parameters (model (model_engine a)))
      as [summary |] eqn:Hm.
    + destruct (summary (at_summary a w)) as [[[] | e] w3] eqn:Hs.
      * apply init_returns; [exact Hd |].
        unfold try_except, call_print_trainable_parameters.
        rewrite Hm, Hs. reflexivity.
      * destruct (is_AttributeError e) eqn:He.
        -- apply init_returns; [exact Hd |].
           unfold try_except, call_print_trainable_parameters.
           rewrite Hm, Hs, He. reflexivity.
        -- apply init_propagates; [exact Hd |].
           unfold try_except, call_print_trainable_parameters.
           rewrite Hm, Hs, He. reflexivity.
    + apply init_returns; [exact Hd |].
      unfold try_except, call_print_trainable_parameters.
      rewrite Hm. reflexivity.
Qed.

Lemma init_trains_then_attempts_summary_witness :
  duration_representable (Samples.args_of 10 None false) = true /\
  print_trainable_parameters
    (model (model_engine (Samples.args_of 10 None false))) = None /\
  exists self,
    __init__ Samples.cpu_globals (Samples.args_of 10 None false) Samples.w0 =
      (Ok self,
       mkWorld [Mkdir "saved_model"; ModuleTrain 1] ["saved_model"]).
Proof.
  split; [reflexivity |]. split; [reflexivity |].
  exact (proj2 (init_trains_then_attempts_summary
                  Samples.cpu_globals (Samples.args_of 10 None false)
                  Samples.w0 eq_refl)).
Defined.

(* ===================================================================== *)
(** ** The step adapters *)
(* ===================================================================== *)

(** C7: [training_step] hands the batch to the engine; with the loss the
    engine returns it appends the loss's value to [losses], logs it under
    "loss" on the progress bar, and returns the loss tensor.
    [validation_step] does the same with the engine's validation step,
    [val_losses] and "val_loss", and returns [None].  An exception of the
    engine leaves either method as it is, with nothing appended or logged. *)
Theorem step_adapters_delegate_record_log
  (self : TuringLightningModule.t) (b : batch) (batch_idx : nat) (w : world) :
  (forall loss w1,
     engine_training_step (TuringLightningModule.model_engine self) b w =
       (Ok loss, w1) ->
     TuringLightningModule.training_step self b batch_idx w =
       (Ok (TuringLightningModule.set_losses self
              (TuringLightningModule.losses self ++ [item loss]),
            PyTensor loss),
        mkWorld (trace w1 ++ [ProgressLog "loss" (item loss) true]) (paths w1))) /\
  (forall loss w1,
     engine_validation_step (TuringLightningModule.model_engine self) b w =
       (Ok loss, w1) ->
     TuringLightningModule.validation_step self b batch_idx w =
       (Ok (TuringLightningModule.set_val_losses self
              (TuringLightningModule.val_losses self ++ [item loss]),
            PyNone),
        mkWorld (trace w1 ++ [ProgressLog "val_loss" (item loss) true])
                (paths w1))) /\
  (forall e w1,
     engine_training_step (TuringLightningModule.model_engine self) b w =
       (Raise e, w1) ->
     TuringLightningModule.training_step self b batch_idx w = (Raise e, w1)) /\
  (forall e w1,
     engine_validation_step (TuringLightningModule.model_engine self) b w =
       (Raise e, w1) ->
     TuringLightningModule.validation_step self b batch_idx w = (Raise e, w1)).
Proof.
  unfold TuringLightningModule.training_step,
    TuringLightningModule.validation_step.
  repeat split; intros x w1 H.
  - rewrite (bind_Ok _ _ _ _ _ H). reflexivity.
  - rewrite (bind_Ok _ _ _ _ _ H). reflexivity.
  - apply bind_Raise. exact H.
  - apply bind_Raise. exact H.
Qed.

Lemma step_adapters_delegate_record_log_witness :
  TuringLightningModule.training_step (Samples.module_named "adamw")
    (Batch 0) 0 Samples.w0 =
    (Ok (TuringLightningModule.set_losses (Samples.module_named "adamw")
           [item Samples.loss],
         PyTensor Samples.loss),
     mkWorld [ProgressLog "loss" (item Samples.loss) true] []) /\
  TuringLightningModule.validation_step (Samples.module_named "adamw")
    (Batch 0) 0 Samples.w0 =
    (Ok (TuringLightningModule.set_val_losses (Samples.module_named "adamw")
           [item Samples.loss],
         PyNone),
     mkWorld [ProgressLog "val_loss" (item Samples.loss) true] []).
Proof.
  pose proof (step_adapters_delegate_record_log
                (Samples.module_named "adamw") (Batch 0) 0 Samples.w0)
    as (Ht & Hv & _).
  split.
  - exact (Ht Samples.loss Samples.w0 eq_refl).
  - exact (Hv Samples.loss Samples.w0 eq_refl).
Defined.

(** C7, as stated, fails for the validation variant: the engine returns a
    loss, and what [validation_step] returns is not that loss tensor. *)
Lemma validation_step_does_not_return_loss :
  exists self' v w',
    engine_validation_step
      (TuringLightningModule.model_engine (Samples.module_named "adamw"))
      (Batch 0) Samples.w0 = (Ok Samples.loss, Samples.w0) /\
    TuringLightningModule.validation_step (Samples.module_named "adamw")
      (Batch 0) 0 Samples.w0 = (Ok (self', v), w') /\
    v <> PyTensor Samples.loss.
Proof.
  eexists. eexists. eexists. split; [reflexivity |].
  split; [lazy; reflexivity |]. discriminate.
Qed.

(* ===================================================================== *)
(** ** The run and the accessor *)
(* ===================================================================== *)

(** No hook rebinds [self.model_engine]. *)
Lemma run_hook_keeps_engine
  (torch : torch_package) (h : hook_call)
  (m m' : TuringLightningModule.t) (w w' : world) :
  run_hook torch h m w = (Ok m', w') ->
  TuringLightningModule.model_engine m' = TuringLightningModule.model_engine m.
Proof.
  destruct h as [| b i | b i |]; cbn [run_hook]; intros H;
    apply bind_inv_Ok in H; destruct H as (r & w1 & Hc & Hr);
    unfold ret in Hr; injection Hr as <- _.
  - reflexivity.
  - unfold TuringLightningModule.training_step in Hc.
    apply bind_inv_Ok in Hc. destruct Hc as (loss & w2 & _ & Hc).
    cbn in Hc. injection Hc as <- _. reflexivity.
  - unfold TuringLightningModule.validation_step in Hc.
    apply bind_inv_Ok in Hc. destruct Hc as (loss & w2 & _ & Hc).
    cbn in Hc. injection Hc as <- _. reflexivity.
  - reflexivity.
Qed.

Lemma run_hooks_keeps_engine (torch : torch_package) (hs : list hook_call) :
  forall (m m' : TuringLightningModule.t) (w w' : world),
    run_hooks torch hs m w = (Ok m', w') ->
    TuringLightningModule.model_engine m' =
    TuringLightningModule.model_engine m.
Proof.
  induction hs as [| h hs IH]; intros m m' w w' H.
  - cbn in H. unfold ret in H. injection H as <- _. reflexivity.
  - cbn [run_hooks] in H. apply bind_inv_Ok in H.
    destruct H as (m1 & w1 & Hh & Hrest).
    rewrite (IH _ _ _ _ Hrest). exact (run_hook_keeps_engine _ _ _ _ _ _ Hh).
Qed.

(** A driver built by the constructor has a checkpoint callback exactly
    when it was built with checkpointing on. *)
Lemma checkpoint_callback_iff_enabled
  (g : config.globals) (a : args) (w w' : world) (self : t) :
  __init__ g a w = (Ok self, w') ->
  (if Trainer.enable_checkpointing (trainer self)
   then exists c, Trainer.checkpoint_callback (trainer self) = Some c
   else Trainer.checkpoint_callback (trainer self) = None).
Proof.
  intros H. apply init_inv in H.
  destruct H as (_ & _ & _ & _ & _ & _ & H).
  unfold Trainer.checkpoint_callback, Trainer.all_callbacks.
  destruct (strategy_of g a); destruct H as (_ & -> & -> & _).
  - rewrite app_nil_r. unfold conditional_callbacks.
    destruct (100 <? len (train_dataset a))%nat;
      destruct (max_training_time_in_secs a); reflexivity.
  - rewrite no_checkpoint_in_conditional. unfold conditional_callbacks.
    destruct (100 <? len (train_dataset a))%nat;
      destruct (max_training_time_in_secs a); cbn; eexists; reflexivity.
  - cbn. eexists. reflexivity.
Qed.

(** C8: when [fit] returns after a construction that returned, the driver's
    run returned; [fit] then read the best checkpoint's path exactly when
    the driver was built with checkpointing on, and did nothing else; what
    it returns is [None].  [engine] gives the model engine the constructor
    was passed, before the run and after it. *)
Theorem fit_returns_None_engine_is_the_argument
  (g : config.globals) (a : args)
  (torch : torch_package) (run : list hook_call)
  (w0 w1 w2 : world) (self self' : t) (r : pyval) :
  __init__ g a w0 = (Ok self, w1) ->
  fit torch run self w1 = (Ok (self', r), w2) ->
  r = PyNone /\
  engine self = model_engine a /\
  engine self' = model_engine a /\
  engine_id (engine self') = engine_id (model_engine a) /\
  trainer self' = trainer self /\
  exists m wr,
    run_hooks torch run (lightning_model self) w1 = (Ok m, wr) /\
    trace w2 =
      trace wr ++
      (if Trainer.enable_checkpointing (trainer self)
       then [ReadBestModelPath] else []) /\
    paths w2 = paths wr.
Proof.
  intros Hinit Hfit.
  pose proof (checkpoint_callback_iff_enabled _ _ _ _ _ Hinit) as Hcb.
  apply init_inv in Hinit. destruct Hinit as (_ & Hlm & _).
  assert (He : engine self = model_engine a).
  { unfold engine. rewrite Hlm. reflexivity. }
  unfold fit in Hfit. apply bind_inv_Ok in Hfit.
  destruct Hfit as (m & wr & Hrun & Hfit).
  cbn [trainer] in Hfit.
  assert (Hm : TuringLightningModule.model_engine m = model_engine a).
  { rewrite (run_hooks_keeps_engine _ _ _ _ _ _ Hrun). exact He. }
  destruct (Trainer.enable_checkpointing (trainer self)).
  - destruct Hcb as [c Hc]. rewrite Hc in Hfit. cbn in Hfit.
    injection Hfit as <- <- <-.
    split; [reflexivity |]. split; [exact He |].
    split; [exact Hm |]. split; [exact (f_equal engine_id Hm) |].
    split; [reflexivity |].
    exists m, wr. split; [exact Hrun |]. split; reflexivity.
  - rewrite Hcb in Hfit. cbn in Hfit. injection Hfit as <- <- <-.
    split; [reflexivity |]. split; [exact He |].
    split; [exact Hm |]. split; [exact (f_equal engine_id Hm) |].
    split; [reflexivity |].
    exists m, wr. split; [exact Hrun |].
    split; [symmetry; apply app_nil_r | reflexivity].
Qed.

Lemma fit_returns_None_engine_is_the_argument_witness :
  exists self w1 self' w2,
    __init__ Samples.cuda_globals (Samples.args_of 10 None false) Samples.w0 =
      (Ok self, w1) /\
    fit DeletesSubmoduleNames Samples.one_epoch self w1 =
      (Ok (self', PyNone), w2) /\
    engine self' = Samples.plain_engine /\
    Trainer.enable_checkpointing (trainer self) = true /\
    exists t, trace w2 = t ++ [ReadBestModelPath].
Proof.
  eexists. eexists. eexists. eexists.
  split; [lazy; reflexivity |]. split; [lazy; reflexivity |].
  pose proof (fit_returns_None_engine_is_the_argument
                Samples.cuda_globals (Samples.args_of 10 None false)
                DeletesSubmoduleNames Samples.one_epoch Samples.w0
                _ _ _ _ _ eq_refl eq_refl)
    as (_ & _ & He & _ & _ & m & wr & _ & Ht & _).
  split; [exact He |]. split; [reflexivity |].
  exists (trace wr). exact Ht.
Defined.

(* ===================================================================== *)
(** ** The selector and its consumers *)
(* ===================================================================== *)

(** The globals the module body binds, in terms of the two answers. *)
Lemma import_module_globals
  (hw : config.hardware) (interactive : bool) (w : world) :
  exists w',
    config.import_module hw interactive w =
      (Ok {| config.DEFAULT_DEVICE :=
               config.torch_device
                 (if config.cuda_available hw then "cuda"
                  else if config.mps_available hw then "mps" else "cpu");
             config.DEFAULT_DTYPE :=
               if config.cuda_available hw
               then config.float16 else config.float32;
             config.IS_INTERACTIVE := interactive |}, w').
Proof.
  destruct hw as [[] []]; eexists; cbn; reflexivity.
Qed.

(** X3: after the import, [assert_not_cpu_int8] raises its assertion
    failure exactly on a machine with neither CUDA nor the unified-memory
    accelerator, and returns on every other one. *)
Theorem int8_guard_follows_hardware
  (hw : config.hardware) (interactive : bool) (w : world) :
  exists g w',
    config.import_module hw interactive w = (Ok g, w') /\
    config.assert_not_cpu_int8 g w' =
      (if config.cuda_available hw || config.mps_available hw
       then Ok tt
       else Raise (AssertionError "Int8 models are not supported on CPU"),
       w').
Proof.
  destruct (import_module_globals hw interactive w) as [w' H].
  eexists. exists w'. split; [exact H |].
  destruct hw as [[] []]; reflexivity.
Qed.

(** X4: whatever branch a construction takes, the driver is built for one
    node, logs every 50 steps, and has the caller's [max_epochs] and
    [logger]; it gets the "cpu" accelerator without checkpointing on a
    device of type "cpu", and the "gpu" accelerator with checkpointing on
    any other device type; [strategy] and [precision] are passed only in
    the third branch, as "auto" and the caller's [lora_type]. *)
Theorem driver_shape_across_branches
  (g : config.globals) (a : args) (w w' : world) (self : t) :
  __init__ g a w = (Ok self, w') ->
  Trainer.num_nodes (trainer self) = 1%Z /\
  Trainer.log_every_n_steps (trainer self) = 50%Z /\
  Trainer.max_epochs (trainer self) = max_epochs a /\
  Trainer.logger (trainer self) = logger a /\
  Trainer.accelerator (trainer self) =
    (if config.type (config.DEFAULT_DEVICE g) =? "cpu" then "cpu" else "gpu") /\
  Trainer.enable_checkpointing (trainer self) =
    negb (config.type (config.DEFAULT_DEVICE g) =? "cpu") /\
  Trainer.strategy (trainer self) =
    (match strategy_of g a with
     | OffloadStrategy => Some "auto" | _ => None end) /\
  Trainer.precision (trainer self) =
    (match strategy_of g a with
     | OffloadStrategy => Some (lora_type a) | _ => None end).
Proof.
  intros H. apply init_inv in H.
  destruct H as (_ & _ & Hn & He & Hl & Hg & H).
  unfold strategy_of in *.
  destruct (config.type (config.DEFAULT_DEVICE g) =? "cpu");
    [| destruct (negb (use_lora a) && negb (use_deepspeed a))];
    destruct H as (-> & -> & _ & -> & ->); cbn; auto 10.
Qed.

Lemma driver_shape_across_branches_witness :
  exists self w',
    __init__ Samples.cuda_globals (Samples.args_of 10 None true) Samples.w0 =
      (Ok self, w') /\
    Trainer.accelerator (trainer self) = "gpu" /\
    Trainer.precision (trainer self) = Some 16%Z.
Proof.
  eexists. eexists. split; [lazy; reflexivity |].
  pose proof (driver_shape_across_branches
                Samples.cuda_globals (Samples.args_of 10 None true) Samples.w0
                _ _ eq_refl) as (_ & _ & _ & _ & Hacc & _ & _ & Hp).
  split; [exact Hacc | exact Hp].
Defined.

(** X5: with the globals the import produced, the driver is built for the
    "cpu" accelerator without checkpointing exactly on a machine with
    neither accelerator; on a machine with only the unified-memory
    accelerator it is built for "gpu", with checkpointing, while the
    default precision stays float32. *)
Theorem driver_follows_hardware
  (hw : config.hardware) (interactive : bool) (g : config.globals)
  (a : args) (w0 w1 w2 w3 : world) (self : t) :
  config.import_module hw interactive w0 = (Ok g, w1) ->
  __init__ g a w2 = (Ok self, w3) ->
  Trainer.accelerator (trainer self) =
    (if config.cuda_available hw || config.mps_available hw
     then "gpu" else "cpu") /\
  Trainer.enable_checkpointing (trainer self) =
    (config.cuda_available hw || config.mps_available hw) /\
  (config.cuda_available hw = false ->
   config.DEFAULT_DTYPE g = config.float32).
Proof.
  intros Himp H.
  destruct (import_module_globals hw interactive w0) as [w1' Hg].
  rewrite Hg in Himp. injection Himp as <- _.
  apply init_inv in H. destruct H as (_ & _ & _ & _ & _ & _ & H).
  unfold strategy_of in H. cbn in H.
  destruct hw as [[] []]; cbn in *;
    try destruct (negb (use_lora a) && negb (use_deepspeed a));
    destruct H as (-> & -> & _); repeat split; auto; discriminate.
Qed.

Lemma driver_follows_hardware_witness :
  exists g w1 self w3,
    config.import_module Samples.mps_only false Samples.w0 = (Ok g, w1) /\
    __init__ g (Samples.args_of 10 None false) w1 = (Ok self, w3) /\
    Trainer.accelerator (trainer self) = "gpu" /\
    Trainer.enable_checkpointing (trainer self) = true /\
    config.DEFAULT_DTYPE g = config.float32.
Proof.
  eexists. eexists. eexists. eexists.
  split; [lazy; reflexivity |]. split; [lazy; reflexivity |].
  pose proof (driver_follows_hardware
                Samples.mps_only false _ (Samples.args_of 10 None false)
                Samples.w0 _ (mkWorld [Probe "cuda"; Probe "mps"] []) _ _
                eq_refl eq_refl) as (Hacc & Hchk & Hdt).
  split; [exact Hacc |]. split; [exact Hchk | exact (Hdt eq_refl)].
Defined.

(** X6: unless the third branch is taken, every callback the driver is
    built with is the learning-rate finder or the timer of the requested
    duration: the caller's [extra_callbacks] are not among them, and no
    checkpoint callback is. *)
Theorem extra_callbacks_reach_only_third_branch
  (g : config.globals) (a : args) (w w' : world) (self : t) :
  __init__ g a w = (Ok self, w') ->
  strategy_of g a <> OffloadStrategy ->
  forall c, In c (Trainer.callbacks (trainer self)) ->
    c = LearningRateFinder \/
    exists secs, max_training_time_in_secs a = Some secs /\
                 c = Timer {| total_seconds := secs |}.
Proof.
  intros H Hs c Hc. apply init_inv in H.
  destruct H as (_ & _ & _ & _ & _ & _ & H).
  assert (Hcbs : Trainer.callbacks (trainer self) = conditional_callbacks a).
  { destruct (strategy_of g a); [| | contradiction];
      destruct H as (_ & _ & -> & _); reflexivity. }
  rewrite Hcbs in Hc. unfold conditional_callbacks in Hc.
  apply in_app_or in Hc. destruct Hc as [Hc | Hc].
  - destruct (100 <? len (train_dataset a))%nat; [| contradiction].
    destruct Hc as [<- | []]. left. reflexivity.
  - destruct (max_training_time_in_secs a) as [secs |]; [| contradiction].
    destruct Hc as [<- | []]. right. exists secs. split; reflexivity.
Qed.

Lemma extra_callbacks_reach_only_third_branch_witness :
  exists self w',
    __init__ Samples.cuda_globals (Samples.args_with_extra false) Samples.w0 =
      (Ok self, w') /\
    extra_callbacks (Samples.args_with_extra false) = [UserCallback 9] /\
    (In (UserCallback 9) (Trainer.callbacks (trainer self)) -> False).
Proof.
  eexists. eexists. split; [lazy; reflexivity |]. split; [reflexivity |].
  intros Hin.
  destruct (extra_callbacks_reach_only_third_branch
              Samples.cuda_globals (Samples.args_with_extra false) Samples.w0
              _ _ eq_refl ltac:(discriminate) _ Hin)
    as [Hc | (secs & _ & Hc)]; discriminate Hc.
Defined.


(** The checkpoint directory step: what it leaves on disk, and that it does
    nothing where the directory is. *)
Lemma with_saved_model_dir_present (w : world) :
  existsb (String.eqb "saved_model") (paths (with_saved_model_dir w)) = true.
Proof.
  unfold with_saved_model_dir.
  destruct (existsb (String.eqb "saved_model") (paths w)) eqn:E;
    [exact E | reflexivity].
Qed.

Lemma with_saved_model_dir_idle (w : world) :
  existsb (String.eqb "saved_model") (paths w) = true ->
  with_saved_model_dir w = w.
Proof. intros E. unfold with_saved_model_dir. rewrite E. reflexivity. Qed.

Lemma with_saved_model_dir_keeps (w : world) (p : string) :
  In p (paths w) -> In p (paths (with_saved_model_dir w)).
Proof.
  intros Hp. unfold with_saved_model_dir.
  destruct (existsb (String.eqb "saved_model") (paths w));
    [exact Hp | right; exact Hp].
Qed.

(** X7: a construction leaves the checkpoint directory in place, creating
    it only when it was absent; a second construction in the world the
    first one left creates nothing and only puts its model in training
    mode.  (Models without the optional summary method, durations a
    [timedelta] holds.) *)
Theorem checkpoint_dir_created_once
  (g g' : config.globals) (a a' : args) (w : world) :
  print_trainable_parameters (model (model_engine a)) = None ->
  print_trainable_parameters (model (model_engine a')) = None ->
  duration_representable a = true ->
  duration_representable a' = true ->
  exists self w1 self',
    __init__ g a w = (Ok self, w1) /\
    existsb (String.eqb "saved_model") (paths w1) = true /\
    (forall p, In p (paths w) -> In p (paths w1)) /\
    (existsb (String.eqb "saved_model") (paths w) = true ->
     paths w1 = paths w /\
     trace w1 =
       trace w ++ [ModuleTrain (module_id (model (model_engine a)))]) /\
    __init__ g' a' w1 =
      (Ok self',
       mkWorld
         (trace w1 ++ [ModuleTrain (module_id (model (model_engine a')))])
         (paths w1)).
Proof.
  intros Hm Hm' Hd Hd'.
  destruct (init_returns g a w (at_summary a w) Hd) as [self Hself].
  { unfold try_except, call_print_trainable_parameters. rewrite Hm.
    reflexivity. }
  destruct (init_returns g' a' (at_summary a w)
              (at_summary a' (at_summary a w)) Hd') as [self' Hself'].
  { unfold try_except, call_print_trainable_parameters. rewrite Hm'.
    reflexivity. }
  exists self, (at_summary a w), self'.
  split; [exact Hself |].
  split; [exact (with_saved_model_dir_present w) |].
  split; [exact (with_saved_model_dir_keeps w) |]. split.
  - intros E. unfold at_summary.
    rewrite (with_saved_model_dir_idle w E). split; reflexivity.
  - rewrite Hself'. f_equal. unfold at_summary at 1.
    rewrite (with_saved_model_dir_idle (at_summary a w)
               (with_saved_model_dir_present w)).
    reflexivity.
Qed.

Lemma checkpoint_dir_created_once_witness :
  exists self w1 self',
    __init__ Samples.cpu_globals (Samples.args_of 10 None false) Samples.w0 =
      (Ok self, w1) /\
    trace w1 = [Mkdir "saved_model"; ModuleTrain 1] /\
    __init__ Samples.cuda_globals (Samples.args_of 200 None true) w1 =
      (Ok self',
       mkWorld [Mkdir "saved_model"; ModuleTrain 1; ModuleTrain 1]
         ["saved_model"]).
Proof.
  destruct (checkpoint_dir_created_once
              Samples.cpu_globals Samples.cuda_globals
              (Samples.args_of 10 None false) (Samples.args_of 200 None true)
              Samples.w0 eq_refl eq_refl eq_refl eq_refl)
    as (self & w1 & self' & H1 & _ & _ & _ & H2).
  assert (Hw : w1 = mkWorld [Mkdir "saved_model"; ModuleTrain 1]
                      ["saved_model"]).
  { lazy in H1. injection H1 as _ <-. reflexivity. }
  subst w1. exists self. eexists. exists self'.
  split; [exact H1 |]. split; [reflexivity | exact H2].
Defined.

(* ===================================================================== *)
(** ** What a run does to the module *)
(* ===================================================================== *)

Lemma logged_app (name : string) (t1 t2 : list event) :
  logged name (t1 ++ t2) = logged name t1 ++ logged name t2.
Proof.
  induction t1 as [| e t1 IH]; [reflexivity |].
  destruct e; simpl; try exact IH.
  destruct (name0 =? name); simpl; rewrite IH; reflexivity.
Qed.

Lemma same_configuration_refl (m : TuringLightningModule.t) :
  same_configuration m m.
Proof. unfold same_configuration. repeat split. Qed.

Lemma same_configuration_trans (m1 m2 m3 : TuringLightningModule.t) :
  same_configuration m1 m2 -> same_configuration m2 m3 ->
  same_configuration m1 m3.
Proof.
  unfold same_configuration.
  intros (A1 & A2 & A3 & A4 & A5 & A6 & A7 & A8 & A9 & A10)
         (B1 & B2 & B3 & B4 & B5 & B6 & B7 & B8 & B9 & B10).
  repeat split; etransitivity; eassumption.
Qed.

(** Running the hooks of [hs1 ++ hs2] is running [hs1], then [hs2]. *)
Lemma run_hooks_app (torch : torch_package) (hs1 hs2 : list hook_call) :
  forall (m : TuringLightningModule.t) (w : world),
    run_hooks torch (hs1 ++ hs2) m w =
    bind (run_hooks torch hs1 m) (run_hooks torch hs2) w.
Proof.
  induction hs1 as [| h hs1 IH]; intros m w.
  - reflexivity.
  - cbn [run_hooks app]. unfold bind at 1 2 3.
    destruct (run_hook torch h m w) as [[m1 | e] w1]; [| reflexivity].
    rewrite IH. reflexivity.
Qed.

(** Evaluating and calling an optimizer's name leaves the world as it is,
    whether the call returns or raises. *)
Lemma call_optimizer_keeps_world
  (f : py_name) (params : list nat) (rate : float) (w : world) :
  snd (call_optimizer f params rate w) = w.
Proof.
  destruct f as [c | q | o n]; [| reflexivity | reflexivity].
  unfold call_optimizer, optimizer_init.
  destruct (checks_learning_rate c && negb (PrimFloat.leb 0 rate));
    [reflexivity |].
  destruct params; reflexivity.
Qed.

Lemma run_hook_effect
  (torch : torch_package) (h : hook_call)
  (m m' : TuringLightningModule.t) (w w' : world) :
  run_hook torch h m w = (Ok m', w') ->
  exists lt lv,
    length lt = training_steps [h] /\
    length lv = validation_steps [h] /\
    hook_effect m m' w w' lt lv.
Proof.
  destruct h as [| b i | b i |]; cbn [run_hook]; intros H;
    apply bind_inv_Ok in H; destruct H as (r & w1 & Hc & Hr);
    unfold ret in Hr; injection Hr as <- <-.
  - exists [], []. split; [reflexivity |]. split; [reflexivity |].
    assert (Hw : forall name, logged name (trace w1) = logged name (trace w)).
    { intros name.
      unfold TuringLightningModule.configure_optimizers in Hc.
      apply bind_inv_Ok in Hc. destruct Hc as (o & w2 & Ho & Hc).
      apply bind_inv_Ok in Hc. destruct Hc as ([] & w3 & Hp & Hc).
      apply bind_inv_Ok in Hc. destruct Hc as (opt & w4 & Hl & Hc).
      unfold ret in Hc. injection Hc as _ <-.
      assert (w4 = w3) as ->.
      { destruct o; cbn in Hl; unfold ret, raise in Hl;
          [injection Hl as _ <-; reflexivity | discriminate Hl]. }
      unfold print, emit in Hp. injection Hp as <-. cbn [trace].
      rewrite logged_app. cbn. rewrite app_nil_r.
      assert (w2 = w) as ->; [| reflexivity].
      destruct (TuringLightningModule.optimizer_name m =? "adamw");
        [| destruct (TuringLightningModule.optimizer_name m =? "adam");
           [| destruct (TuringLightningModule.optimizer_name m =? "cpu_adam")]];
        try (apply bind_inv_Ok in Ho; destruct Ho as (o' & w5 & Ho & Hr);
             unfold ret in Hr; injection Hr as _ <-;
             match type of Ho with
             | call_optimizer ?f ?p ?r ?w0 = _ =>
                 pose proof (call_optimizer_keeps_world f p r w0) as Hk
             end;
             rewrite Ho in Hk; exact Hk).
      unfold ret in Ho. injection Ho as _ <-. reflexivity. }
    constructor.
    + apply same_configuration_refl.
    + symmetry. apply app_nil_r.
    + symmetry. apply app_nil_r.
    + intros _. rewrite !Hw, !app_nil_r. split; reflexivity.
  - unfold TuringLightningModule.training_step in Hc.
    apply bind_inv_Ok in Hc. destruct Hc as (loss & w2 & He & Hc).
    cbn in Hc. injection Hc as <- <-.
    exists [item loss], []. split; [reflexivity |]. split; [reflexivity |].
    constructor.
    + unfold same_configuration. cbn. repeat split.
    + reflexivity.
    + cbn. symmetry. apply app_nil_r.
    + intros (Ht & _ & _). cbn [trace].
      pose proof (Ht b "loss" w) as H1. pose proof (Ht b "val_loss" w) as H2.
      rewrite He in H1, H2. cbn [snd] in H1, H2.
      rewrite !logged_app, H1, H2. cbn. rewrite !app_nil_r.
      split; reflexivity.
  - unfold TuringLightningModule.validation_step in Hc.
    apply bind_inv_Ok in Hc. destruct Hc as (loss & w2 & He & Hc).
    cbn in Hc. injection Hc as <- <-.
    exists [], [item loss]. split; [reflexivity |]. split; [reflexivity |].
    constructor.
    + unfold same_configuration. cbn. repeat split.
    + cbn. symmetry. apply app_nil_r.
    + reflexivity.
    + intros (_ & Hv & _). cbn [trace].
      pose proof (Hv b "loss" w) as H1. pose proof (Hv b "val_loss" w) as H2.
      rewrite He in H1, H2. cbn [snd] in H1, H2.
      rewrite !logged_app, H1, H2. cbn. rewrite !app_nil_r.
      split; reflexivity.
  - exists [], []. split; [reflexivity |]. split; [reflexivity |].
    constructor.
    + apply same_configuration_refl.
    + symmetry. apply app_nil_r.
    + symmetry. apply app_nil_r.
    + intros (_ & _ & Hs).
      unfold TuringLightningModule.on_save_checkpoint in Hc.
      pose proof (Hs (TuringLightningModule.saved_path m) "loss" w) as H1.
      pose proof (Hs (TuringLightningModule.saved_path m) "val_loss" w) as H2.
      rewrite Hc in H1, H2. cbn [snd] in H1, H2.
      rewrite H1, H2, !app_nil_r. split; reflexivity.
Qed.

Lemma hook_effect_trans
  (m m1 m' : TuringLightningModule.t) (w w1 w' : world)
  (lt1 lv1 lt2 lv2 : list float) :
  hook_effect m m1 w w1 lt1 lv1 ->
  hook_effect m1 m' w1 w' lt2 lv2 ->
  hook_effect m m' w w' (lt1 ++ lt2) (lv1 ++ lv2).
Proof.
  intros [C1 L1 V1 D1] [C2 L2 V2 D2]. constructor.
  - exact (same_configuration_trans _ _ _ C1 C2).
  - rewrite L2, L1, app_assoc. reflexivity.
  - rewrite V2, V1, app_assoc. reflexivity.
  - intros He. destruct (D1 He) as [A1 B1].
    assert (He1 : engine_keeps_progress_display
                    (TuringLightningModule.model_engine m1)).
    { destruct C1 as (-> & _). exact He. }
    destruct (D2 He1) as [A2 B2].
    rewrite A2, A1, B2, B1, !app_assoc. split; reflexivity.
Qed.

(** By induction on the hook calls of a run that returned. *)
Lemma run_hooks_effect (torch : torch_package) (hs : list hook_call) :
  forall (m m' : TuringLightningModule.t) (w w' : world),
    run_hooks torch hs m w = (Ok m', w') ->
    exists lt lv,
      length lt = training_steps hs /\
      length lv = validation_steps hs /\
      hook_effect m m' w w' lt lv.
Proof.
  induction hs as [| h hs IH]; intros m m' w w' H.
  - cbn in H. unfold ret in H. injection H as <- <-.
    exists [], []. split; [reflexivity |]. split; [reflexivity |].
    constructor.
    + apply same_configuration_refl.
    + symmetry. apply app_nil_r.
    + symmetry. apply app_nil_r.
    + intros _. rewrite !app_nil_r. split; reflexivity.
  - cbn [run_hooks] in H. apply bind_inv_Ok in H.
    destruct H as (m1 & w1 & Hh & Hrest).
    destruct (run_hook_effect _ _ _ _ _ _ Hh) as (lt1 & lv1 & Ht1 & Hv1 & E1).
    destruct (IH _ _ _ _ Hrest) as (lt2 & lv2 & Ht2 & Hv2 & E2).
    exists (lt1 ++ lt2), (lv1 ++ lv2).
    split; [| split].
    + rewrite length_app, Ht1, Ht2. destruct h; reflexivity.
    + rewrite length_app, Hv1, Hv2. destruct h; reflexivity.
    + exact (hook_effect_trans _ _ _ _ _ _ _ _ _ _ E1 E2).
Qed.

(** What [fit] that returned went through. *)
Lemma fit_inv
  (torch : torch_package) (run : list hook_call)
  (self self' : t) (r : pyval) (w1 w2 : world) :
  fit torch run self w1 = (Ok (self', r), w2) ->
  exists wr,
    run_hooks torch run (lightning_model self) w1 =
      (Ok (lightning_model self'), wr) /\
    (forall name, logged name (trace w2) = logged name (trace wr)).
Proof.
  unfold fit. intros H. apply bind_inv_Ok in H.
  destruct H as (m & wr & Hrun & H). exists wr.
  apply bind_inv_Ok in H. destruct H as ([] & w3 & Hread & H).
  unfold ret in H. injection H as <- _ <-. split; [exact Hrun |].
  intros name. cbn [trainer] in Hread.
  destruct (Trainer.checkpoint_callback (trainer self)).
  - unfold emit in Hread. injection Hread as <-. cbn [trace].
    rewrite logged_app. apply app_nil_r.
  - unfold ret in Hread. injection Hread as <-. reflexivity.
Qed.

(** X8: after a construction and a [fit] that returned, the module has the
    engine, model, datasets, preprocessors, batch size, learning rate,
    optimizer name and save path it was built with, and its two histories
    hold one entry per training step and one per validation step of the
    run. *)
Theorem fit_keeps_configuration_counts_steps
  (g : config.globals) (a : args)
  (torch : torch_package) (run : list hook_call)
  (w0 w1 w2 : world) (self self' : t) (r : pyval) :
  __init__ g a w0 = (Ok self, w1) ->
  fit torch run self w1 = (Ok (self', r), w2) ->
  same_configuration (lightning_model self) (lightning_model self') /\
  length (TuringLightningModule.losses (lightning_model self')) =
    training_steps run /\
  length (TuringLightningModule.val_losses (lightning_model self')) =
    validation_steps run.
Proof.
  intros Hinit Hfit. apply init_inv in Hinit.
  destruct Hinit as (_ & Hlm & _).
  apply fit_inv in Hfit. destruct Hfit as (wr & Hrun & _).
  apply run_hooks_effect in Hrun.
  destruct Hrun as (lt & lv & Ht & Hv & [C L V _]).
  split; [exact C |]. rewrite L, V, Hlm. cbn. split; assumption.
Qed.

Lemma fit_keeps_configuration_counts_steps_witness :
  exists self w1 self' w2,
    __init__ Samples.cpu_globals (Samples.args_of 10 None false) Samples.w0 =
      (Ok self, w1) /\
    fit KeepsSubmoduleNames Samples.one_epoch self w1 =
      (Ok (self', PyNone), w2) /\
    length (TuringLightningModule.losses (lightning_model self')) = 2 /\
    length (TuringLightningModule.val_losses (lightning_model self')) = 1.
Proof.
  eexists. eexists. eexists. eexists.
  split; [lazy; reflexivity |]. split; [lazy; reflexivity |].
  exact (proj2 (fit_keeps_configuration_counts_steps
                  Samples.cpu_globals (Samples.args_of 10 None false)
                  KeepsSubmoduleNames Samples.one_epoch Samples.w0
                  _ _ _ _ _ eq_refl eq_refl)).
Defined.

(** X9: with an engine that writes nothing to the progress display itself,
    what a [fit] that returned has added to the display under "loss" is the
    module's [losses], in order, and under "val_loss" its [val_losses]. *)
Theorem fit_display_agrees_with_histories
  (g : config.globals) (a : args)
  (torch : torch_package) (run : list hook_call)
  (w0 w1 w2 : world) (self self' : t) (r : pyval) :
  engine_keeps_progress_display (model_engine a) ->
  __init__ g a w0 = (Ok self, w1) ->
  fit torch run self w1 = (Ok (self', r), w2) ->
  logged "loss" (trace w2) =
    logged "loss" (trace w1) ++
    TuringLightningModule.losses (lightning_model self') /\
  logged "val_loss" (trace w2) =
    logged "val_loss" (trace w1) ++
    TuringLightningModule.val_losses (lightning_model self').
Proof.
  intros He Hinit Hfit. apply init_inv in Hinit.
  destruct Hinit as (_ & Hlm & _).
  apply fit_inv in Hfit. destruct Hfit as (wr & Hrun & Hlog).
  apply run_hooks_effect in Hrun.
  destruct Hrun as (lt & lv & _ & _ & [_ L V D]).
  rewrite Hlm in D, L, V. cbn in D, L, V.
  destruct (D He) as [D1 D2].
  rewrite !Hlog, L, V, D1, D2. split; reflexivity.
Qed.

Lemma fit_display_agrees_with_histories_witness :
  engine_keeps_progress_display Samples.plain_engine /\
  exists self w1 self' w2,
    __init__ Samples.cpu_globals (Samples.args_of 10 None false) Samples.w0 =
      (Ok self, w1) /\
    fit KeepsSubmoduleNames Samples.one_epoch self w1 =
      (Ok (self', PyNone), w2) /\
    logged "loss" (trace w2) =
      TuringLightningModule.losses (lightning_model self').
Proof.
  assert (He : engine_keeps_progress_display Samples.plain_engine).
  { repeat split. }
  split; [exact He |].
  eexists. eexists. eexists. eexists.
  split; [lazy; reflexivity |]. split; [lazy; reflexivity |].
  exact (proj1 (fit_display_agrees_with_histories
                  Samples.cpu_globals (Samples.args_of 10 None false)
                  KeepsSubmoduleNames Samples.one_epoch Samples.w0
                  _ _ _ _ _ He eq_refl eq_refl)).
Defined.

(** X10: on a module built by the constructor, before or after a run,
    [on_save_checkpoint] is the engine's [save] on "saved_model", the
    directory the constructor has left in place; what the run driver passes
    as the checkpoint is not used. *)
Theorem on_save_checkpoint_saves_to_saved_model
  (g : config.globals) (a : args)
  (torch : torch_package) (run : list hook_call)
  (w0 w1 w2 : world) (self self' : t) (r : pyval) :
  __init__ g a w0 = (Ok self, w1) ->
  fit torch run self w1 = (Ok (self', r), w2) ->
  TuringLightningModule.on_save_checkpoint (lightning_model self) =
    save (model_engine a) "saved_model" /\
  TuringLightningModule.on_save_checkpoint (lightning_model self') =
    save (model_engine a) "saved_model".
Proof.
  intros Hinit Hfit. apply init_inv in Hinit.
  destruct Hinit as (_ & Hlm & _).
  apply fit_inv in Hfit. destruct Hfit as (wr & Hrun & _).
  apply run_hooks_effect in Hrun.
  destruct Hrun as (lt & lv & _ & _ & [C _ _ _]).
  destruct C as (Ce & _ & _ & _ & _ & _ & _ & _ & _ & Cp).
  unfold TuringLightningModule.on_save_checkpoint.
  rewrite Ce, Cp, Hlm. split; reflexivity.
Qed.

Lemma on_save_checkpoint_saves_to_saved_model_witness :
  exists self w1 self' w2,
    __init__ Samples.cuda_globals (Samples.args_of 10 None true) Samples.w0 =
      (Ok self, w1) /\
    fit DeletesSubmoduleNames Samples.one_epoch self w1 =
      (Ok (self', PyNone), w2) /\
    TuringLightningModule.on_save_checkpoint (lightning_model self') =
      save Samples.plain_engine "saved_model".
Proof.
  eexists. eexists. eexists. eexists.
  split; [lazy; reflexivity |]. split; [lazy; reflexivity |].
  exact (proj2 (on_save_checkpoint_saves_to_saved_model
                  Samples.cuda_globals (Samples.args_of 10 None true)
                  DeletesSubmoduleNames Samples.one_epoch Samples.w0
                  _ _ _ _ _ eq_refl eq_refl)).
Defined.

(** X11: on a module built by the constructor, before or after a run, the
    training loader is over the caller's training dataset with the caller's
    training preprocessor as [collate_fn], the validation loader over the
    validation dataset with the validation preprocessor; both shuffle, use
    one worker, pin memory and take the caller's batch size; and each
    method sets its own attribute and leaves the other's as it was. *)
Theorem dataloaders_wired_to_arguments
  (g : config.globals) (a : args)
  (torch : torch_package) (run : list hook_call)
  (w0 w1 w2 : world) (self self' : t) (r : pyval)
  (attrs : TuringLightningModule.loader_attrs) :
  __init__ g a w0 = (Ok self, w1) ->
  fit torch run self w1 = (Ok (self', r), w2) ->
  let train_dl :=
    {| DataLoader.dataset := train_dataset a;
       DataLoader.collate_fn := Some (train_preprocessor a);
       DataLoader.shuffle := true;
       DataLoader.num_workers := 1;
       DataLoader.pin_memory := true;
       DataLoader.batch_size := batch_size a |} in
  let val_dl :=
    {| DataLoader.dataset := val_dataset a;
       DataLoader.collate_fn := Some (val_preprocessor a);
       DataLoader.shuffle := true;
       DataLoader.num_workers := 1;
       DataLoader.pin_memory := true;
       DataLoader.batch_size := batch_size a |} in
  TuringLightningModule.train_dataloader (lightning_model self') attrs =
    ({| TuringLightningModule.train_dl := Some train_dl;
        TuringLightningModule.val_dl := TuringLightningModule.val_dl attrs |},
     train_dl) /\
  TuringLightningModule.val_dataloader (lightning_model self') attrs =
    ({| TuringLightningModule.train_dl := TuringLightningModule.train_dl attrs;
        TuringLightningModule.val_dl := Some val_dl |},
     val_dl) /\
  TuringLightningModule.train_dataloader (lightning_model self) attrs =
    TuringLightningModule.train_dataloader (lightning_model self') attrs /\
  TuringLightningModule.val_dataloader (lightning_model self) attrs =
    TuringLightningModule.val_dataloader (lightning_model self') attrs.
Proof.
  intros Hinit Hfit. apply init_inv in Hinit.
  destruct Hinit as (_ & Hlm & _).
  apply fit_inv in Hfit. destruct Hfit as (wr & Hrun & _).
  apply run_hooks_effect in Hrun.
  destruct Hrun as (lt & lv & _ & _ & [C _ _ _]).
  destruct C as (_ & _ & Ctd & Cvd & Ctp & Cvp & Cb & _).
  unfold TuringLightningModule.train_dataloader,
    TuringLightningModule.val_dataloader.
  cbv zeta. rewrite Ctd, Cvd, Ctp, Cvp, Cb, Hlm. cbn.
  repeat split.
Qed.

Lemma dataloaders_wired_to_arguments_witness :
  exists self w1 self' w2,
    __init__ Samples.cpu_globals (Samples.args_of 10 None false) Samples.w0 =
      (Ok self, w1) /\
    fit KeepsSubmoduleNames Samples.one_epoch self w1 =
      (Ok (self', PyNone), w2) /\
    DataLoader.dataset
      (snd (TuringLightningModule.val_dataloader (lightning_model self')
              TuringLightningModule.no_loaders)) = Samples.dataset 10 /\
    TuringLightningModule.train_dl
      (fst (TuringLightningModule.val_dataloader (lightning_model self')
              TuringLightningModule.no_loaders)) = None.
Proof.
  eexists. eexists. eexists. eexists.
  split; [lazy; reflexivity |]. split; [lazy; reflexivity |].
  pose proof (dataloaders_wired_to_arguments
                Samples.cpu_globals (Samples.args_of 10 None false)
                KeepsSubmoduleNames Samples.one_epoch Samples.w0
                _ _ _ _ _ TuringLightningModule.no_loaders eq_refl eq_refl)
    as (_ & Hv & _).
  split.
  - exact (f_equal (fun p => DataLoader.dataset (snd p)) Hv).
  - exact (f_equal (fun p => TuringLightningModule.train_dl (fst p)) Hv).
Defined.

(* ===================================================================== *)
(** ** Failures during a run *)
(* ===================================================================== *)

(** A run raises what the first hook that raises does, in the world that
    hook left; the hooks after it are not called. *)
Lemma run_hooks_raises_at
  (torch : torch_package) (pre rest : list hook_call) (h : hook_call)
  (m m1 : TuringLightningModule.t) (w w1 w2 : world) (e : exn) :
  run_hooks torch pre m w = (Ok m1, w1) ->
  run_hook torch h m1 w1 = (Raise e, w2) ->
  run_hooks torch (pre ++ h :: rest) m w = (Raise e, w2).
Proof.
  intros Hpre Hh. rewrite run_hooks_app.
  rewrite (bind_Ok _ _ _ _ _ Hpre). cbn [run_hooks].
  apply bind_Raise. exact Hh.
Qed.

(** X12: [fit] catches nothing: when a hook of the run raises, after the
    hooks before it returned, [fit] raises the same exception in the world
    that hook left; no later hook is called and no checkpoint path is
    read. *)
Theorem fit_stops_at_first_failing_hook
  (torch : torch_package) (pre rest : list hook_call) (h : hook_call)
  (self : t) (m1 : TuringLightningModule.t) (w w1 w2 : world) (e : exn) :
  run_hooks torch pre (lightning_model self) w = (Ok m1, w1) ->
  run_hook torch h m1 w1 = (Raise e, w2) ->
  fit torch (pre ++ h :: rest) self w = (Raise e, w2).
Proof.
  intros Hpre Hh. unfold fit. apply bind_Raise.
  exact (run_hooks_raises_at _ _ _ _ _ _ _ _ _ _ Hpre Hh).
Qed.

Lemma fit_stops_at_first_failing_hook_witness :
  exists self w1,
    __init__ Samples.cuda_globals Samples.args_failing Samples.w0 =
      (Ok self, w1) /\
    fit KeepsSubmoduleNames
      ([CallConfigureOptimizers] ++
       CallTrainingStep (Batch 0) 0 :: [CallValidationStep (Batch 1) 0])
      self w1 =
      (Raise (OtherError "CUDA out of memory"),
       mkWorld [Mkdir "saved_model"; ModuleTrain 1; Stdout "adamw"]
         ["saved_model"]).
Proof.
  eexists. eexists. split; [lazy; reflexivity |].
  eapply fit_stops_at_first_failing_hook; lazy; reflexivity.
Defined.

(** X13: the constructor does not look at the optimizer name; the failure
    comes in [fit], at the first [configure_optimizers] call the driver
    makes.  For a name other than "adamw" and "cpu_adam" [fit] raises
    there: under "adam" what the evaluation of [torch.optim.adam] raises,
    with nothing printed; under any other name [UnboundLocalError] for the
    local [optimizer], after the name was printed. *)
Theorem unsupported_optimizer_fails_in_fit
  (g : config.globals) (a : args)
  (torch : torch_package) (pre rest : list hook_call)
  (w0 w1 w2 : world) (self : t) (m1 : TuringLightningModule.t) :
  optimizer_name a <> "adamw" ->
  optimizer_name a <> "cpu_adam" ->
  __init__ g a w0 = (Ok self, w1) ->
  run_hooks torch pre (lightning_model self) w1 = (Ok m1, w2) ->
  fit torch (pre ++ CallConfigureOptimizers :: rest) self w1 =
    if optimizer_name a =? "adam"
    then (Raise (match torch with
                 | KeepsSubmoduleNames =>
                     TypeError "'module' object is not callable"
                 | DeletesSubmoduleNames => AttributeError "adam"
                 end), w2)
    else (Raise (UnboundLocalError "optimizer"),
          mkWorld (trace w2 ++ [Stdout (optimizer_name a)]) (paths w2)).
Proof.
  intros H1 H3 Hinit Hpre. apply init_inv in Hinit.
  destruct Hinit as (_ & Hlm & _).
  assert (Hname : TuringLightningModule.optimizer_name m1 = optimizer_name a).
  { pose proof (run_hooks_effect _ _ _ _ _ _ Hpre)
      as (lt & lv & _ & _ & [C _ _ _]).
    destruct C as (_ & _ & _ & _ & _ & _ & _ & _ & -> & _).
    rewrite Hlm. reflexivity. }
  destruct (optimizer_name a =? "adam") eqn:Ha;
    unfold fit; apply bind_Raise;
    apply (run_hooks_raises_at _ _ _ _ _ _ _ _ _ _ Hpre);
    cbn [run_hook]; apply bind_Raise;
    unfold TuringLightningModule.configure_optimizers;
    rewrite Hname, (eqb_neq_false _ _ H1), Ha.
  - destruct torch; reflexivity.
  - rewrite (eqb_neq_false _ _ H3). reflexivity.
Qed.

Lemma unsupported_optimizer_fails_in_fit_witness :
  exists self w1,
    __init__ Samples.cpu_globals (Samples.args_named "sgd") Samples.w0 =
      (Ok self, w1) /\
    fit KeepsSubmoduleNames
      ([] ++ CallConfigureOptimizers :: [CallTrainingStep (Batch 0) 0])
      self w1 =
      (Raise (UnboundLocalError "optimizer"),
       mkWorld [Mkdir "saved_model"; ModuleTrain 1; Stdout "sgd"]
         ["saved_model"]).
Proof.
  eexists. eexists. split; [lazy; reflexivity |].
  apply (unsupported_optimizer_fails_in_fit
           Samples.cpu_globals (Samples.args_named "sgd")
           KeepsSubmoduleNames [] [CallTrainingStep (Batch 0) 0]
           Samples.w0 _ _ _ _ ltac:(discriminate) ltac:(discriminate)
           eq_refl eq_refl).
Defined.

(** X14: what a module built by the constructor under "adamw" or "cpu_adam"
    hands to the optimizer's constructor, at whatever point of the run the
    driver asks for the optimizer, is the parameters of the engine's model
    and the caller's learning rate.  Where the constructor refuses them
    (under "adamw" a rate that fails [0.0 <= lr]; under either name an empty
    parameter list) the call raises its [ValueError]; otherwise it returns
    the optimizer over them with one [LinearLR] schedule over it. *)
Theorem optimizer_wired_to_arguments
  (g : config.globals) (a : args)
  (torch : torch_package) (pre : list hook_call)
  (w0 w1 w2 : world) (self : t) (m1 : TuringLightningModule.t) :
  optimizer_name a = "adamw" \/ optimizer_name a = "cpu_adam" ->
  __init__ g a w0 = (Ok self, w1) ->
  run_hooks torch pre (lightning_model self) w1 = (Ok m1, w2) ->
  TuringLightningModule.configure_optimizers torch m1 w2 =
    if (optimizer_name a =? "adamw") &&
       negb (PrimFloat.leb 0%float (learning_rate a))
    then (Raise (ValueError "Invalid learning rate"), w2)
    else
      match parameters (model (model_engine a)) with
      | [] =>
          (Raise (ValueError "optimizer got an empty parameter list"), w2)
      | _ :: _ =>
          let opt :=
            {| opt_class :=
                 if optimizer_name a =? "adamw"
                 then AdamW else DeepSpeedCPUAdam;
               opt_params := parameters (model (model_engine a));
               lr := learning_rate a |} in
          (Ok ([opt], [LinearLR opt]),
           mkWorld (trace w2 ++ [Stdout (optimizer_name a)]) (paths w2))
      end.
Proof.
  intros Hname Hinit Hpre. apply init_inv in Hinit.
  destruct Hinit as (_ & Hlm & _).
  pose proof (run_hooks_effect _ _ _ _ _ _ Hpre)
    as (lt & lv & _ & _ & [C _ _ _]).
  destruct C as (_ & Cm & _ & _ & _ & _ & _ & Cl & Cn & _).
  rewrite Hlm in Cm, Cl, Cn. cbn in Cm, Cl, Cn.
  unfold TuringLightningModule.configure_optimizers.
  rewrite Cm, Cl, Cn.
  destruct Hname as [-> | ->];
    cbn [String.eqb Ascii.eqb Bool.eqb andb];
    unfold call_optimizer, torch_optim_AdamW,
      deepspeed_ops_adam_DeepSpeedCPUAdam, optimizer_init;
    cbn [checks_learning_rate andb].
  - destruct (PrimFloat.leb 0 (learning_rate a)); [| reflexivity].
    destruct (parameters (model (model_engine a))); reflexivity.
  - destruct (parameters (model (model_engine a))); reflexivity.
Qed.

Lemma optimizer_wired_to_arguments_witness :
  exists self w1 m1 w2,
    __init__ Samples.cpu_globals (Samples.args_named "cpu_adam") Samples.w0 =
      (Ok self, w1) /\
    run_hooks KeepsSubmoduleNames [CallTrainingStep (Batch 0) 0]
      (lightning_model self) w1 = (Ok m1, w2) /\
    fst (TuringLightningModule.configure_optimizers KeepsSubmoduleNames m1 w2) =
      Ok ([{| opt_class := DeepSpeedCPUAdam;
              opt_params := [10; 11; 12]%nat;
              lr := 0x1.0624dd2f1a9fcp-10%float |}],
          [LinearLR {| opt_class := DeepSpeedCPUAdam;
                       opt_params := [10; 11; 12]%nat;
                       lr := 0x1.0624dd2f1a9fcp-10%float |}]).
Proof.
  eexists. eexists. eexists. eexists.
  split; [lazy; reflexivity |]. split; [lazy; reflexivity |].
  exact (f_equal fst
           (optimizer_wired_to_arguments
              Samples.cpu_globals (Samples.args_named "cpu_adam")
              KeepsSubmoduleNames [CallTrainingStep (Batch 0) 0]
              Samples.w0 _ _ _ _ (or_intror eq_refl) eq_refl eq_refl)).
Defined.
